(** * Text Summarizer API (src/main.py): a shallow embedding and its properties

    The service has two request handlers, [summarize_text] (POST
    /api/summarize) and [summarize_text_stream] (POST /api/summarize/stream).
    Both validate the request, build a prompt, call the Writer client and
    shape the answer.  The embedding below follows main.py line by line:

    - Python [str] values are Stdlib strings; the characters are taken to be
      ASCII, on which [str.strip], [str.split], [str.lower] and [in] act as
      defined in [PyStr];
    - Python [int] values are [Z]; Python [float] values are binary64
      primitive floats, with [/] on ints and [round(x, 1)] in [PyFloat];
    - exceptions are values of [PyException]; a [try] body is a computation
      in the monad [Work], which also records every call made to the Writer
      client;
    - the async generator [generate_stream] is the list of events it yields
      when it is consumed to its end. *)

From Stdlib Require Import ZArith List String Ascii Bool Lia DecimalString.
From Stdlib Require Import Floats Uint63.
Import ListNotations.

Set Warnings "-inexact-float".

Local Open Scope string_scope.
Local Open Scope Z_scope.

(* ================================================================== *)
(** ** Python string operations used by main.py *)

Module PyStr.

(** [str.isspace] on ASCII: TAB, LF, VT, FF, CR, FS, GS, RS, US, space. *)
Definition isspace (c : ascii) : bool :=
  let n := nat_of_ascii c in
  ((9 <=? n) && (n <=? 13) || (28 <=? n) && (n <=? 32))%nat.

Fixpoint lstrip (s : string) : string :=
  match s with
  | EmptyString => EmptyString
  | String c t => if isspace c then lstrip t else s
  end.

Fixpoint rstrip (s : string) : string :=
  match s with
  | EmptyString => EmptyString
  | String c t =>
      match rstrip t with
      | EmptyString => if isspace c then EmptyString else String c EmptyString
      | t' => String c t'
      end
  end.

(** [s.strip()] *)
Definition strip (s : string) : string := rstrip (lstrip s).

(** [s.split()] with no separator: the maximal runs of non-whitespace
    characters, in order.  [word] is the run being read, if any. *)
Fixpoint split_from (word : option string) (s : string) : list string :=
  match s with
  | EmptyString => match word with Some w => [w] | None => [] end
  | String c t =>
      if isspace c then
        match word with
        | Some w => w :: split_from None t
        | None => split_from None t
        end
      else
        match word with
        | Some w => split_from (Some (w ++ String c EmptyString)) t
        | None => split_from (Some (String c EmptyString)) t
        end
  end.

Definition split (s : string) : list string := split_from None s.

(** [str.lower] on ASCII: A-Z go to a-z, everything else is kept. *)
Definition lower_char (c : ascii) : ascii :=
  let n := nat_of_ascii c in
  if ((65 <=? n) && (n <=? 90))%nat then ascii_of_nat (n + 32) else c.

Fixpoint lower (s : string) : string :=
  match s with
  | EmptyString => EmptyString
  | String c t => String (lower_char c) (lower t)
  end.

(** [needle in hay] *)
Fixpoint contains (needle hay : string) : bool :=
  String.prefix needle hay
  || match hay with
     | EmptyString => false
     | String _ t => contains needle t
     end.

(** [len(s)] *)
Definition len (s : string) : Z := Z.of_nat (String.length s).

(** truthiness of a string: [not s] is [negb (truthy s)] *)
Definition truthy (s : string) : bool :=
  match s with EmptyString => false | _ => true end.

End PyStr.

(** The line feed of the triple-quoted templates. *)
Definition LF : string := String (ascii_of_nat 10) EmptyString.

(* main.py:49-50 *)
Definition count_words (text : string) : Z :=
  Z.of_nat (List.length (PyStr.split (PyStr.strip text))).

(* ================================================================== *)
(** ** Python numbers: true division of ints and [round(x, 1)] *)

Module PyFloat.

(** [float(n)] for an int below 2^63 (word counts are list lengths). *)
Definition of_int (n : Z) : float := PrimFloat.of_uint63 (Uint63.of_Z n).

(** [a / b] on non-negative ints below 2^53: both conversions are exact
    and the quotient is rounded once, as [long_true_divide] does. *)
Definition true_div (a b : Z) : float := (of_int a / of_int b)%float.

(** The integer nearest to [n / d], ties to the even one ([0 <= n],
    [0 < d]). *)
Definition div_half_even (n d : Z) : Z :=
  let q := n / d in
  let r := n mod d in
  match 2 * r ?= d with
  | Lt => q
  | Gt => q + 1
  | Eq => if Z.even q then q else q + 1
  end.

(** [round(x, 1)] (float.__round__ with ndigits = 1): zeros, infinities
    and NaN are returned as they are; a finite [x = +-m * 2^e] goes to the
    double nearest to [k / 10], where [k] is the integer nearest to the
    exact value [10 * m * 2^e], ties to even, and keeps its sign.  From
    2^49 on the doubles are more than 0.1 apart and the result is [x]. *)
Definition round1 (x : float) : float :=
  match Prim2SF x with
  | S754_finite s m e =>
      if -3 <=? e then x
      else
        let k := div_half_even (10 * Z.pos m) (2 ^ (- e)) in
        let r := (of_int k / of_int 10)%float in
        if s then (- r)%float else r
  | _ => x
  end.

End PyFloat.

(* main.py:118 and main.py:213, the expression bound to
   [compression_ratio]; the [else 0] of the source is the number zero. *)
Definition calc_compression_ratio (summary_word_count original_word_count : Z) : float :=
  if 0 <? original_word_count then
    PyFloat.round1
      ((1 - PyFloat.true_div summary_word_count original_word_count) * 100)%float
  else 0%float.

(* ================================================================== *)
(** ** Data model *)

(* main.py:33-36.  The request as the handlers receive it: an omitted
   [max_length] is [None]; an omitted [style] is [Some "concise"], a null
   one is [None]. *)
Record TextSummarizeRequest := {
  text : string;
  max_length : option Z;
  style : option string
}.

(* main.py:38-42 *)
Record TextSummarizeResponse := {
  summary : string;
  original_word_count : Z;
  summary_word_count : Z;
  compression_ratio : float
}.

(** The payloads that [generate_stream] serialises with [json.dumps] and
    frames as [data: <json>] followed by a blank line (main.py:209, 216-223,
    227-231), tagged by their ['type']. *)
Inductive StreamEvent :=
| chunk (content : string)
| complete (summary : string) (original_word_count summary_word_count : Z)
           (compression_ratio : float)
| error (message : string).

(** Exceptions: FastAPI's [HTTPException], and any other [Exception],
    which the handlers only ever observe through [str(e)]. *)
Inductive PyException :=
| HTTPException (status_code : Z) (detail : string)
| Exception (str_e : string).

(** *** The Writer client *)

(** The keyword arguments of [writer_client.chat.chat]. *)
Record ChatArgs := {
  model : string;
  messages : list (string * string);      (* role, content *)
  max_tokens : Z;
  temperature : float;
  stream : bool
}.

(** What a call to the SDK does: it returns, or raises an exception whose
    [str] is [str_e]. *)
Inductive Upstream (A : Type) :=
| Returns (a : A)
| Raises (str_e : string).
Arguments Returns {A} a.
Arguments Raises {A} str_e.

(** [response.choices[i].message.content], a string or [None]. *)
Record ChatCompletion := { choices : list (option string) }.

(** [chunk.choices[i].delta]: it may lack the attribute [content], and
    the attribute may be [None]. *)
Inductive Delta :=
| delta_without_content
| delta_content (content : option string).

Record ChatCompletionChunk := { chunk_choices : list Delta }.

(** An open stream: the chunks its iteration produces and how the
    iteration ends, by exhaustion ([None]) or by raising. *)
Record ChunkStream := {
  chunks : list ChatCompletionChunk;
  stream_failure : option string
}.

(** The client is external; it is an arbitrary function of the arguments
    it is called with, one for [stream=False] and one for [stream=True]. *)
Record Writer := {
  chat : ChatArgs -> Upstream ChatCompletion;
  chat_stream : ChatArgs -> Upstream ChunkStream
}.

(* ================================================================== *)
(** ** Effects: upstream calls, yielded events and exceptions *)

Inductive Effect :=
| Call (args : ChatArgs)
| Yield (ev : StreamEvent).

Inductive Outcome (A : Type) :=
| Return (a : A)
| Raise (e : PyException).
Arguments Return {A} a.
Arguments Raise {A} e.

(** A computation: the effects it performs, in order, and how it ends. *)
Definition Work (A : Type) : Type := (list Effect * Outcome A)%type.

Definition ret {A} (a : A) : Work A := ([], Return a).
Definition raise {A} (e : PyException) : Work A := ([], Raise e).
Definition perform (ef : Effect) : Work unit := ([ef], Return tt).

Definition bind {A B} (m : Work A) (k : A -> Work B) : Work B :=
  match m with
  | (tr, Return a) => let (tr', r) := k a in ((tr ++ tr')%list, r)
  | (tr, Raise e) => (tr, Raise e)
  end.

(** [try: m except Exception as e: h e] *)
Definition try_except {A} (m : Work A) (h : PyException -> Work A) : Work A :=
  match m with
  | (tr, Return a) => (tr, Return a)
  | (tr, Raise e) => let (tr', r) := h e in ((tr ++ tr')%list, r)
  end.

Declare Scope work_scope.
Delimit Scope work_scope with work.
Notation "x <- m ;; k" := (bind m (fun x => k))
  (at level 61, m at next level, right associativity) : work_scope.
Notation "m ;;; k" := (bind m (fun _ => k))
  (at level 61, right associativity) : work_scope.
Local Open Scope work_scope.

(** [if cond: raise e] *)
Definition raise_if (cond : bool) (e : PyException) : Work unit :=
  if cond then raise e else ret tt.

(** [xs[0]] *)
Definition index0 {A} (xs : list A) : Work A :=
  match xs with
  | x :: _ => ret x
  | [] => raise (Exception "list index out of range")
  end.

(** [content.strip()] where [content] may be [None] *)
Definition strip_attr (content : option string) : Work string :=
  match content with
  | Some s => ret (PyStr.strip s)
  | None => raise (Exception "'NoneType' object has no attribute 'strip'")
  end.

Definition calls (tr : list Effect) : list ChatArgs :=
  flat_map (fun ef => match ef with Call a => [a] | Yield _ => [] end) tr.

Definition yielded (tr : list Effect) : list StreamEvent :=
  flat_map (fun ef => match ef with Yield ev => [ev] | Call _ => [] end) tr.

(* ================================================================== *)
(** ** Prompt building, upstream arguments, error mapping *)

(** [request.style == name] *)
Definition style_is (style : option string) (name : string) : bool :=
  match style with
  | Some s => String.eqb s name
  | None => false
  end.

(* main.py:79-96 and, word for word, main.py:164-181 *)
Definition build_prompt (text : string) (style : option string) : string :=
  if style_is style "bullet_points" then
    "Please summarize the following text in bullet points format. Focus on the key points and main ideas:"
      ++ LF ++ LF ++ text ++ LF ++ LF ++ "Summary (bullet points):"
  else if style_is style "detailed" then
    "Please provide a detailed summary of the following text, maintaining important details and context:"
      ++ LF ++ LF ++ text ++ LF ++ LF ++ "Detailed summary:"
  else
    "Please provide a concise summary of the following text, capturing the main points in a clear and brief manner:"
      ++ LF ++ LF ++ text ++ LF ++ LF ++ "Concise summary:".

(** [x if x else d] on an optional int: [None] and [0] are falsy. *)
Definition if_truthy_else (x : option Z) (d : Z) : Z :=
  match x with
  | Some n => if n =? 0 then d else n
  | None => d
  end.

(* main.py:99-109 and main.py:189-200 *)
Definition chat_kwargs (request : TextSummarizeRequest) (prompt : string)
    (streaming : bool) : ChatArgs :=
  {| model := "palmyra-x-004";
     messages := [("user", prompt)];
     max_tokens := if_truthy_else (max_length request) 500;
     temperature := 0.3%float;
     stream := streaming |}.

(* main.py:233-241 *)
Record StreamingResponse := {
  body : Work unit;
  media_type : string;
  headers : list (string * string)
}.

(** [chunk.choices[0].delta.content] when the attribute is there and
    truthy (main.py:204). *)
Definition delta_text (d : Delta) : option string :=
  match d with
  | delta_content (Some s) => if PyStr.truthy s then Some s else None
  | _ => None
  end.

(** Starlette's [HTTPException.__str__]: the status code, a colon, the
    detail. *)
Definition starlette_str (status_code : Z) (detail : string) : string :=
  DecimalString.NilZero.string_of_int (Z.to_int status_code) ++ ": " ++ detail.

Section Handlers.

(** [str(e)] of an [HTTPException] is the web framework's business; the
    handlers are studied for any rendering. *)
Variable HTTPException_str : Z -> string -> string.

(* main.py:28-30 *)
Variable writer_client : Writer.

Definition str (e : PyException) : string :=
  match e with
  | HTTPException status_code detail => HTTPException_str status_code detail
  | Exception str_e => str_e
  end.

Definition call_chat (args : ChatArgs) : Work ChatCompletion :=
  perform (Call args) ;;;
  match chat writer_client args with
  | Returns response => ret response
  | Raises str_e => raise (Exception str_e)
  end.

Definition call_chat_stream (args : ChatArgs) : Work ChunkStream :=
  perform (Call args) ;;;
  match chat_stream writer_client args with
  | Returns s => ret s
  | Raises str_e => raise (Exception str_e)
  end.

(* main.py:127-143 and main.py:243-259 *)
Definition handle_exception {A} (e : PyException) : Work A :=
  if PyStr.contains "api_key" (PyStr.lower (str e)) then
    raise (HTTPException 401
      "Writer API key not configured. Please set WRITER_API_KEY environment variable.")
  else if PyStr.contains "rate limit" (PyStr.lower (str e)) then
    raise (HTTPException 429 "Rate limit exceeded. Please try again later.")
  else
    raise (HTTPException 500 ("Error generating summary: " ++ str e)).

(** The body of the [try] of main.py:67-125. *)
Definition summarize_text_try (request : TextSummarizeRequest)
    : Work TextSummarizeResponse :=
  raise_if (negb (PyStr.truthy (PyStr.strip (text request))))
           (HTTPException 400 "Text cannot be empty") ;;;
  raise_if (PyStr.len (PyStr.strip (text request)) <? 50)
           (HTTPException 400 "Text must be at least 50 characters long") ;;;
  let original_word_count := count_words (text request) in
  let prompt := build_prompt (text request) (style request) in
  response <- call_chat (chat_kwargs request prompt false) ;;
  choice0 <- index0 (choices response) ;;
  summary <- strip_attr choice0 ;;
  let summary_word_count := count_words summary in
  let compression_ratio :=
    calc_compression_ratio summary_word_count original_word_count in
  ret {| summary := summary;
         original_word_count := original_word_count;
         summary_word_count := summary_word_count;
         compression_ratio := compression_ratio |}.

(* main.py:62-143 *)
Definition summarize_text (request : TextSummarizeRequest)
    : Work TextSummarizeResponse :=
  try_except (summarize_text_try request) handle_exception.

(** The [for] loop of main.py:203-209 over what is left of the stream,
    with the accumulator [summary_text]; it returns the accumulator. *)
Fixpoint relay (cs : list ChatCompletionChunk) (failure : option string)
    (summary_text : string) : Work string :=
  match cs with
  | [] =>
      match failure with
      | Some str_e => raise (Exception str_e)
      | None => ret summary_text
      end
  | c :: rest =>
      d <- index0 (chunk_choices c) ;;
      match delta_text d with
      | Some content =>
          perform (Yield (chunk content)) ;;;
          relay rest failure (summary_text ++ content)
      | None => relay rest failure summary_text
      end
  end.

(* main.py:183-231 *)
Definition generate_stream (request : TextSummarizeRequest) (prompt : string)
    (original_word_count : Z) : Work unit :=
  try_except
    (s <- call_chat_stream (chat_kwargs request prompt true) ;;
     summary_text <- relay (chunks s) (stream_failure s) "" ;;
     let summary_word_count := count_words summary_text in
     let compression_ratio :=
       calc_compression_ratio summary_word_count original_word_count in
     perform (Yield (complete summary_text original_word_count
                              summary_word_count compression_ratio)))
    (fun e => perform (Yield (error (str e)))).

(** The body of the [try] of main.py:152-241.  The generator is handed
    to the response; nothing of it runs here. *)
Definition summarize_text_stream_try (request : TextSummarizeRequest)
    : Work StreamingResponse :=
  raise_if (negb (PyStr.truthy (PyStr.strip (text request))))
           (HTTPException 400 "Text cannot be empty") ;;;
  raise_if (PyStr.len (PyStr.strip (text request)) <? 50)
           (HTTPException 400 "Text must be at least 50 characters long") ;;;
  let original_word_count := count_words (text request) in
  let prompt := build_prompt (text request) (style request) in
  ret {| body := generate_stream request prompt original_word_count;
         media_type := "text/event-stream";
         headers := [("Cache-Control", "no-cache");
                     ("Connection", "keep-alive");
                     ("X-Accel-Buffering", "no")] |}.

(* main.py:146-259 *)
Definition summarize_text_stream (request : TextSummarizeRequest)
    : Work StreamingResponse :=
  try_except (summarize_text_stream_try request) handle_exception.

End Handlers.

(* ================================================================== *)
(** ** What the client of the service observes *)

(** FastAPI turns a returned value into a 200, an [HTTPException] leaving
    the handler into a response with its status code and [detail], and
    lets any other exception through as an unhandled fault. *)
Inductive HTTPResponse (A : Type) :=
| HTTP200 (content : A)
| HTTPError (status_code : Z) (detail : string)
| Unhandled (str_e : string).
Arguments HTTP200 {A} content.
Arguments HTTPError {A} status_code detail.
Arguments Unhandled {A} str_e.

Definition respond {A} (o : Outcome A) : HTTPResponse A :=
  match o with
  | Return a => HTTP200 a
  | Raise (HTTPException status_code detail) => HTTPError status_code detail
  | Raise (Exception str_e) => Unhandled str_e
  end.

(** POST /api/summarize: the effects of the request and the response. *)
Definition post_summarize (HTTPException_str : Z -> string -> string)
    (writer_client : Writer) (request : TextSummarizeRequest)
    : list Effect * HTTPResponse TextSummarizeResponse :=
  let (tr, o) := summarize_text HTTPException_str writer_client request in
  (tr, respond o).

(** POST /api/summarize/stream: when the handler returns the streaming
    response, the server sends the 200 and then consumes the generator. *)
Definition post_summarize_stream (HTTPException_str : Z -> string -> string)
    (writer_client : Writer) (request : TextSummarizeRequest)
    : list Effect * HTTPResponse StreamingResponse :=
  match summarize_text_stream HTTPException_str writer_client request with
  | (tr, Return response) => ((tr ++ fst (body response))%list, HTTP200 response)
  | (tr, Raise e) => (tr, respond (Raise e))
  end.

(* ================================================================== *)
(** ** Closed forms and predicates of the statements

    The functions of this part are not in main.py: they say in one
    expression what a handler does, and each is proved equal to the
    embedded code before it is used ([summarize_text_try_accepted],
    [relay_eq], [generate_stream_eq]). *)

Definition sync_kwargs (request : TextSummarizeRequest) : ChatArgs :=
  chat_kwargs request (build_prompt (text request) (style request)) false.

Definition stream_kwargs (request : TextSummarizeRequest) : ChatArgs :=
  chat_kwargs request (build_prompt (text request) (style request)) true.

(** The two checks of main.py:69-73 (and 154-158) together. *)
Definition passes_validation (request : TextSummarizeRequest) : bool :=
  PyStr.truthy (PyStr.strip (text request))
  && negb (PyStr.len (PyStr.strip (text request)) <? 50).

(** The exception a rejected request raises inside the [try]. *)
Definition validation_error (request : TextSummarizeRequest) : PyException :=
  if PyStr.truthy (PyStr.strip (text request))
  then HTTPException 400 "Text must be at least 50 characters long"
  else HTTPException 400 "Text cannot be empty".

(** What the synchronous [try] body does with a request that passes
    validation: one call, then the shaping of its answer. *)
Definition shape_answer (request : TextSummarizeRequest)
    (answer : Upstream ChatCompletion) : Outcome TextSummarizeResponse :=
  match answer with
  | Raises str_e => Raise (Exception str_e)
  | Returns response =>
      match choices response with
      | [] => Raise (Exception "list index out of range")
      | None :: _ =>
          Raise (Exception "'NoneType' object has no attribute 'strip'")
      | Some content :: _ =>
          let summary := PyStr.strip content in
          Return {| summary := summary;
                    original_word_count := count_words (text request);
                    summary_word_count := count_words summary;
                    compression_ratio :=
                      calc_compression_ratio (count_words summary)
                                             (count_words (text request)) |}
      end
  end.

(** [''.join(parts)] *)
Definition join (parts : list string) : string :=
  fold_right String.append "" parts.

(** The text increments the loop forwards: those of the chunks whose first
    choice carries text, up to the first chunk without any choice. *)
Fixpoint increments (cs : list ChatCompletionChunk) : list string :=
  match cs with
  | [] => []
  | c :: rest =>
      match chunk_choices c with
      | [] => []
      | d :: _ =>
          match delta_text d with
          | Some content => content :: increments rest
          | None => increments rest
          end
      end
  end.

(** How the loop ends: [None] when the stream is exhausted, or the text of
    the exception that stops it. *)
Fixpoint interruption (cs : list ChatCompletionChunk) (failure : option string)
    : option string :=
  match cs with
  | [] => failure
  | c :: rest =>
      match chunk_choices c with
      | [] => Some "list index out of range"
      | _ :: _ => interruption rest failure
      end
  end.

(** The events of one run of the generator, from what the call that opens
    the stream does. *)
Definition stream_events (original_word_count : Z)
    (answer : Upstream ChunkStream) : list StreamEvent :=
  match answer with
  | Raises str_e => [error str_e]
  | Returns s =>
      let summary_text := join (increments (chunks s)) in
      map chunk (increments (chunks s))
      ++ [match interruption (chunks s) (stream_failure s) with
          | Some str_e => error str_e
          | None =>
              complete summary_text original_word_count
                (count_words summary_text)
                (calc_compression_ratio (count_words summary_text)
                                        original_word_count)
          end]
  end.

(** [complete] and [error] end a stream. *)
Definition terminal (ev : StreamEvent) : bool :=
  match ev with
  | chunk _ => false
  | complete _ _ _ _ | error _ => true
  end.

(** The [content] of the [chunk] events, in the order of emission. *)
Definition chunk_contents (evs : list StreamEvent) : list string :=
  flat_map (fun ev => match ev with chunk content => [content] | _ => [] end) evs.

(** A chunk carries no text when none of its choices does: each delta
    has no [content] attribute, or a [content] that is [None] or empty.
    The chunk without any choice is one of them. *)
Definition carries_no_text (c : ChatCompletionChunk) : Prop :=
  Forall (fun d => delta_text d = None) (chunk_choices c).

(** [s] contains [indicator] up to the case of its letters: some substring
    of [s] lowers to [indicator]. *)
Definition mentions (indicator s : string) : Prop :=
  exists pre mid post, s = pre ++ mid ++ post /\ PyStr.lower mid = indicator.

(** [round((1 - s / o) * 100, 1)] *)
Definition ratio_formula (s o : Z) : float :=
  PyFloat.round1 ((1 - PyFloat.true_div s o) * 100)%float.

(* ================================================================== *)
(** ** Process configuration: the allowed origins (main.py:15) *)

(** [s.split(sep)] for a separator of one character: the pieces between
    the occurrences of [sep], empty pieces included. *)
Fixpoint split_on (sep : ascii) (s : string) : list string :=
  match s with
  | EmptyString => [EmptyString]
  | String c t =>
      if Ascii.eqb c sep then EmptyString :: split_on sep t
      else
        match split_on sep t with
        | piece :: pieces => String c piece :: pieces
        | [] => [String c EmptyString]
        end
  end.

(** [sep.join(pieces)] *)
Fixpoint join_with (sep : string) (pieces : list string) : string :=
  match pieces with
  | [] => EmptyString
  | [piece] => piece
  | piece :: rest => piece ++ sep ++ join_with sep rest
  end.

(** [os.getenv(name, default)] in an environment. *)
Definition getenv (environ : string -> option string) (name default : string)
    : string :=
  match environ name with
  | Some value => value
  | None => default
  end.

Definition comma : ascii := ascii_of_nat 44.

(* main.py:15 *)
Definition cors_origins (environ : string -> option string) : list string :=
  split_on comma
    (getenv environ "CORS_ORIGINS"
       "http://localhost:3000,http://localhost:5173,http://localhost:5174").

(** The number of occurrences of a character. *)
Fixpoint count_char (c : ascii) (s : string) : nat :=
  match s with
  | EmptyString => 0%nat
  | String x t => ((if Ascii.eqb x c then 1 else 0) + count_char c t)%nat
  end.

(* ================================================================== *)
(** ** Server-sent event frames of the string-valued events
       (main.py:209 and main.py:227-231) *)

(** The quotation mark and the backslash. *)
Definition DQ : string := String (ascii_of_nat 34) EmptyString.
Definition BS : string := String (ascii_of_nat 92) EmptyString.

Definition hex_digit (n : nat) : string :=
  String.substring n 1 "0123456789abcdef".

(** [json.dumps] of one character of a string, with [ensure_ascii]: the
    quotation mark and the backslash get a backslash, the usual control
    characters their letter, everything else outside [' '..'~'] the
    [u]-escape with four lower-case hexadecimal digits. *)
Definition json_escape_char (c : ascii) : string :=
  let n := nat_of_ascii c in
  if (n =? 34)%nat then BS ++ DQ
  else if (n =? 92)%nat then BS ++ BS
  else if (n =? 10)%nat then BS ++ "n"
  else if (n =? 13)%nat then BS ++ "r"
  else if (n =? 9)%nat then BS ++ "t"
  else if (n =? 8)%nat then BS ++ "b"
  else if (n =? 12)%nat then BS ++ "f"
  else if ((n <? 32) || (126 <? n))%nat then
    BS ++ "u00" ++ hex_digit (n / 16) ++ hex_digit (n mod 16)
  else String c EmptyString.

Fixpoint json_escape (s : string) : string :=
  match s with
  | EmptyString => EmptyString
  | String c t => json_escape_char c ++ json_escape t
  end.

(** [json.dumps(s)] for a string. *)
Definition json_string (s : string) : string := DQ ++ json_escape s ++ DQ.

(** [json.dumps(d)] for a dict from strings to strings, in the order of
    insertion, with the default separators. *)
Definition json_dumps (d : list (string * string)) : string :=
  "{"
  ++ join_with ", "
       (map (fun kv => json_string (fst kv) ++ ": " ++ json_string (snd kv)) d)
  ++ "}".

(* main.py:209 *)
Definition chunk_frame (content : string) : string :=
  "data: " ++ json_dumps [("type", "chunk"); ("content", content)] ++ LF ++ LF.

(* main.py:227-231 *)
Definition error_frame (message : string) : string :=
  "data: " ++ json_dumps [("type", "error"); ("message", message)] ++ LF ++ LF.

(** Every character of [s] satisfies [p]. *)
Fixpoint all_chars (p : ascii -> bool) (s : string) : bool :=
  match s with
  | EmptyString => true
  | String c t => p c && all_chars p t
  end.

(** The characters from the space to the tilde. *)
Definition printable (c : ascii) : bool :=
  ((32 <=? nat_of_ascii c) && (nat_of_ascii c <=? 126))%nat.

Definition hex_value (c : ascii) : option nat :=
  match String.index 0 (String c EmptyString) "0123456789abcdef" with
  | Some n => Some n
  | None => None
  end.

(** A reader of what [json_escape] writes; it is the means to show that
    the escaping loses nothing. *)
Fixpoint json_unescape (s : string) : option string :=
  match s with
  | EmptyString => Some EmptyString
  | String c t =>
      if (nat_of_ascii c =? 92)%nat then
        match t with
        | String e t' =>
            let k := nat_of_ascii e in
            if (k =? 34)%nat then option_map (String e) (json_unescape t')
            else if (k =? 92)%nat then option_map (String e) (json_unescape t')
            else if (k =? 110)%nat then
              option_map (String (ascii_of_nat 10)) (json_unescape t')
            else if (k =? 114)%nat then
              option_map (String (ascii_of_nat 13)) (json_unescape t')
            else if (k =? 116)%nat then
              option_map (String (ascii_of_nat 9)) (json_unescape t')
            else if (k =? 98)%nat then
              option_map (String (ascii_of_nat 8)) (json_unescape t')
            else if (k =? 102)%nat then
              option_map (String (ascii_of_nat 12)) (json_unescape t')
            else if (k =? 117)%nat then
              match t' with
              | String _ (String _ (String h1 (String h2 t''))) =>
                  match hex_value h1, hex_value h2 with
                  | Some a, Some b =>
                      option_map (String (ascii_of_nat (16 * a + b)))
                                 (json_unescape t'')
                  | _, _ => None
                  end
              | _ => None
              end
            else None
        | EmptyString => None
        end
      else option_map (String c) (json_unescape t)
  end.

(** A string of whitespace only. *)
Definition blank (s : string) : bool := all_chars PyStr.isspace s.

(** The status line of a response; FastAPI answers an exception that is
    not an [HTTPException] with 500. *)
Definition status_of {A} (r : HTTPResponse A) : Z :=
  match r with
  | HTTP200 _ => 200
  | HTTPError status_code _ => status_code
  | Unhandled _ => 500
  end.

(* ================================================================== *)
(** ** Sample requests and clients *)

Module Samples.

Definition fox : string :=
  "The quick brown fox jumps over the lazy dog near the river bank.".

(** 49 characters between the blanks. *)
Definition chars49 : string :=
  "  The quick brown fox jumps over the lazy dog, okay  ".

(** One word of 50 characters. *)
Definition word50 : string :=
  "Pneumonoultramicroscopicsilicovolcanoconiosisesque".

Definition request (t : string) : TextSummarizeRequest :=
  {| text := t; max_length := None; style := Some "concise" |}.

Definition request_max (t : string) (n : Z) : TextSummarizeRequest :=
  {| text := t; max_length := Some n; style := Some "concise" |}.

Definition has (s : string) : ChatCompletionChunk :=
  {| chunk_choices := [delta_content (Some s)] |}.

(** A client that answers, whole or in three chunks, one without text. *)
Definition answering : Writer :=
  {| chat := fun _ => Returns {| choices := [Some " A fox jumps. "] |};
     chat_stream := fun _ =>
       Returns {| chunks := [has "A fox";
                             {| chunk_choices := [delta_content None] |};
                             has " jumps."];
                  stream_failure := None |} |}.

(** A client whose every call raises. *)
Definition failing (str_e : string) : Writer :=
  {| chat := fun _ => Raises str_e;
     chat_stream := fun _ => Raises str_e |}.

(** A client whose stream breaks after the first chunk. *)
Definition breaking (str_e : string) : Writer :=
  {| chat := fun _ => Raises str_e;
     chat_stream := fun _ =>
       Returns {| chunks := [has "A fox"]; stream_failure := Some str_e |} |}.

End Samples.

(* ================================================================== *)
(** ** Facts about the string operations *)

Module PyStrFacts.
Import PyStr.

Lemma prefix_iff (n h : string) :
  String.prefix n h = true <-> exists post, h = n ++ post.
Proof.
  revert h; induction n as [|a n IH]; intros h; simpl.
  - split; [intros _; exists h; reflexivity | intros _; destruct h; reflexivity].
  - destruct h as [|b h].
    + split; [discriminate | intros [post H]; discriminate].
    + simpl. destruct (Ascii.ascii_dec a b) as [Hab|Hab].
      * subst b. rewrite IH. split; intros [post H]; exists post.
        -- now rewrite H.
        -- now injection H.
      * split; [discriminate | intros [post H]; injection H; congruence].
Qed.

Lemma contains_iff (n h : string) :
  contains n h = true <-> exists pre post, h = pre ++ n ++ post.
Proof.
  induction h as [|b h IH]; cbn [contains].
  - rewrite orb_false_r, prefix_iff. split.
    + intros [post H]. exists "", post. exact H.
    + intros [pre [post H]]. destruct pre; [now exists post | discriminate].
  - rewrite orb_true_iff, prefix_iff, IH. split.
    + intros [[post H] | [pre [post H]]].
      * exists "", post. exact H.
      * exists (String b pre), post. simpl. now rewrite H.
    + intros [pre [post H]]. destruct pre as [|c pre]; simpl in H.
      * left. now exists post.
      * right. injection H as _ H. now exists pre, post.
Qed.

Lemma lower_app (a b : string) : lower (a ++ b) = lower a ++ lower b.
Proof. induction a as [|c a IH]; simpl; [reflexivity | now rewrite IH]. Qed.

Lemma lower_split (s a b : string) :
  lower s = a ++ b ->
  exists s1 s2, s = s1 ++ s2 /\ lower s1 = a /\ lower s2 = b.
Proof.
  revert s; induction a as [|c a IH]; intros s H; simpl in H.
  - exists "", s. auto.
  - destruct s as [|d s]; simpl in H; [discriminate|].
    injection H as Hc H. destruct (IH _ H) as (s1 & s2 & -> & H1 & H2).
    exists (String d s1), s2. simpl. rewrite Hc, H1. auto.
Qed.

Lemma rstrip_keeps_head (c : ascii) (t : string) :
  isspace c = false -> exists t', rstrip (String c t) = String c t'.
Proof.
  intros Hc. simpl. destruct (rstrip t) as [|d u].
  - rewrite Hc. now exists "".
  - now exists (String d u).
Qed.

Lemma lstrip_head (s : string) :
  lstrip s = "" \/ exists c t, lstrip s = String c t /\ isspace c = false.
Proof.
  induction s as [|c s IH]; simpl; [now left|].
  destruct (isspace c) eqn:Hc; [exact IH|].
  right. now exists c, s.
Qed.

(** A non-empty stripped text starts with a character that is not
    whitespace. *)
Lemma strip_head (s : string) :
  strip s = "" \/ exists c t, strip s = String c t /\ isspace c = false.
Proof.
  unfold strip. destruct (lstrip_head s) as [-> | (c & t & -> & Hc)].
  - now left.
  - right. destruct (rstrip_keeps_head c t Hc) as [t' H].
    now exists c, t'.
Qed.

Lemma split_from_some (w s : string) : split_from (Some w) s <> [].
Proof.
  revert w; induction s as [|c s IH]; intros w; simpl.
  - discriminate.
  - destruct (isspace c); [discriminate | apply IH].
Qed.

Lemma split_nonempty (c : ascii) (t : string) :
  isspace c = false -> split (String c t) <> [].
Proof.
  intros Hc. unfold split. simpl. rewrite Hc. apply split_from_some.
Qed.

End PyStrFacts.

(** A text that passes validation has at least one word. *)
Lemma count_words_pos (t : string) :
  PyStr.truthy (PyStr.strip t) = true -> 0 < count_words t.
Proof.
  intros H. unfold count_words.
  destruct (PyStrFacts.strip_head t) as [E | (c & u & E & Hc)].
  - rewrite E in H. discriminate.
  - rewrite E. pose proof (PyStrFacts.split_nonempty c u Hc) as Hne.
    destruct (PyStr.split (String c u)); [congruence | simpl; lia].
Qed.

(* ================================================================== *)
(** ** Facts about the effect monad and the two try bodies *)

Lemma bind_ret {A B} (a : A) (k : A -> Work B) : bind (ret a) k = k a.
Proof. unfold bind, ret. destruct (k a). reflexivity. Qed.

Lemma bind_return {A B} (tr : list Effect) (a : A) (k : A -> Work B) :
  bind (tr, Return a) k = ((tr ++ fst (k a))%list, snd (k a)).
Proof. unfold bind. destruct (k a). reflexivity. Qed.

Lemma bind_raise {A B} (e : PyException) (k : A -> Work B) :
  bind (raise e) k = raise e.
Proof. reflexivity. Qed.

Lemma bind_perform {B} (ef : Effect) (k : unit -> Work B) :
  bind (perform ef) k = (ef :: fst (k tt), snd (k tt)).
Proof. unfold bind, perform. destruct (k tt). reflexivity. Qed.

Lemma call_chat_eq (w : Writer) (args : ChatArgs) :
  call_chat w args =
  ([Call args],
   match chat w args with
   | Returns response => Return response
   | Raises str_e => Raise (Exception str_e)
   end).
Proof.
  unfold call_chat. rewrite bind_perform. destruct (chat w args); reflexivity.
Qed.

Lemma call_chat_stream_eq (w : Writer) (args : ChatArgs) :
  call_chat_stream w args =
  ([Call args],
   match chat_stream w args with
   | Returns s => Return s
   | Raises str_e => Raise (Exception str_e)
   end).
Proof.
  unfold call_chat_stream. rewrite bind_perform.
  destruct (chat_stream w args); reflexivity.
Qed.

(** The [except] block always raises an [HTTPException], with one of
    three status codes. *)
Lemma handle_exception_raises hstr (A : Type) (e : PyException) :
  exists status_code detail,
    @handle_exception hstr A e = ([], Raise (HTTPException status_code detail))
    /\ (status_code = 401 \/ status_code = 429 \/ status_code = 500).
Proof.
  unfold handle_exception.
  destruct (PyStr.contains "api_key" _);
    [|destruct (PyStr.contains "rate limit" _)];
    eexists; eexists; (split; [reflexivity|]); auto.
Qed.

Lemma passes_validation_iff (request : TextSummarizeRequest) :
  passes_validation request = true <->
  50 <= PyStr.len (PyStr.strip (text request)).
Proof.
  unfold passes_validation, PyStr.len.
  rewrite andb_true_iff, negb_true_iff, Z.ltb_ge. split; [tauto|].
  intros H. split; [|exact H].
  destruct (PyStr.strip (text request)); [simpl in H; lia | reflexivity].
Qed.

Lemma summarize_text_try_rejected (w : Writer) (request : TextSummarizeRequest) :
  passes_validation request = false ->
  summarize_text_try w request = raise (validation_error request).
Proof.
  unfold passes_validation, summarize_text_try, validation_error, raise_if.
  destruct (PyStr.truthy _); simpl; [|reflexivity].
  rewrite negb_false_iff. intros ->. reflexivity.
Qed.

Lemma summarize_text_stream_try_rejected hstr (w : Writer)
    (request : TextSummarizeRequest) :
  passes_validation request = false ->
  summarize_text_stream_try hstr w request = raise (validation_error request).
Proof.
  unfold passes_validation, summarize_text_stream_try, validation_error, raise_if.
  destruct (PyStr.truthy _); simpl; [|reflexivity].
  rewrite negb_false_iff. intros ->. reflexivity.
Qed.

Lemma summarize_text_try_accepted (w : Writer) (request : TextSummarizeRequest) :
  passes_validation request = true ->
  summarize_text_try w request =
  ([Call (sync_kwargs request)],
   shape_answer request (chat w (sync_kwargs request))).
Proof.
  unfold passes_validation. rewrite andb_true_iff, negb_true_iff.
  intros [Ht Hl]. unfold summarize_text_try, raise_if, sync_kwargs.
  rewrite Ht, Hl. cbn [negb]. rewrite !bind_ret.
  rewrite call_chat_eq. unfold shape_answer.
  destruct (chat w _) as [response|str_e]; [|reflexivity].
  rewrite bind_return.
  destruct (choices response) as [|[content|] rest]; reflexivity.
Qed.

Lemma summarize_text_stream_try_accepted hstr (w : Writer)
    (request : TextSummarizeRequest) :
  passes_validation request = true ->
  summarize_text_stream_try hstr w request =
  ret {| body := generate_stream hstr w request
                   (build_prompt (text request) (style request))
                   (count_words (text request));
         media_type := "text/event-stream";
         headers := [("Cache-Control", "no-cache");
                     ("Connection", "keep-alive");
                     ("X-Accel-Buffering", "no")] |}.
Proof.
  unfold passes_validation. rewrite andb_true_iff, negb_true_iff.
  intros [Ht Hl]. unfold summarize_text_stream_try, raise_if.
  rewrite Ht, Hl. cbn [negb]. rewrite !bind_ret. reflexivity.
Qed.

(* ================================================================== *)
(** ** The relay loop and the generator, in closed form *)

Lemma append_assoc (a b c : string) : (a ++ b) ++ c = a ++ b ++ c.
Proof. induction a as [|x a IH]; simpl; [reflexivity | now rewrite IH]. Qed.

Lemma append_empty_r (a : string) : a ++ "" = a.
Proof. induction a as [|x a IH]; simpl; [reflexivity | now rewrite IH]. Qed.

Lemma relay_eq (cs : list ChatCompletionChunk) (failure : option string) :
  forall summary_text,
    relay cs failure summary_text =
    (map (fun content => Yield (chunk content)) (increments cs),
     match interruption cs failure with
     | Some str_e => Raise (Exception str_e)
     | None => Return (summary_text ++ join (increments cs))
     end).
Proof.
  induction cs as [|c rest IH]; intros acc; cbn [relay increments interruption].
  - destruct failure; [reflexivity|].
    unfold ret, join. simpl. now rewrite append_empty_r.
  - destruct (chunk_choices c) as [|d ds]; cbn [index0].
    + reflexivity.
    + rewrite bind_ret. destruct (delta_text d) as [content|].
      * rewrite bind_perform, IH. cbn [fst snd map].
        destruct (interruption rest failure); [reflexivity|].
        cbn [join fold_right]. now rewrite append_assoc.
      * apply IH.
Qed.

Lemma generate_stream_eq hstr (w : Writer) (request : TextSummarizeRequest)
    (prompt : string) (o : Z) :
  generate_stream hstr w request prompt o =
  (Call (chat_kwargs request prompt true)
     :: map Yield (stream_events o (chat_stream w (chat_kwargs request prompt true))),
   Return tt).
Proof.
  unfold generate_stream, stream_events. rewrite call_chat_stream_eq.
  destruct (chat_stream w _) as [s|str_e]; [|reflexivity].
  rewrite bind_return, relay_eq. cbn [app].
  destruct (interruption (chunks s) (stream_failure s)) as [str_e|].
  - cbn [bind fst snd try_except perform str].
    rewrite map_app, map_map. reflexivity.
  - rewrite bind_return. cbn [fst snd try_except perform].
    rewrite map_app, map_map. reflexivity.
Qed.

Lemma yielded_map_Yield (evs : list StreamEvent) : yielded (map Yield evs) = evs.
Proof.
  unfold yielded. induction evs as [|ev evs IH]; simpl; [reflexivity | now rewrite IH].
Qed.

Lemma calls_map_Yield (evs : list StreamEvent) : calls (map Yield evs) = [].
Proof.
  unfold calls. induction evs as [|ev evs IH]; simpl; [reflexivity | exact IH].
Qed.

(** *** The two endpoints, case by case *)

Lemma post_summarize_rejected hstr (w : Writer) (request : TextSummarizeRequest) :
  passes_validation request = false ->
  post_summarize hstr w request =
  ([], respond (snd (@handle_exception hstr TextSummarizeResponse
                       (validation_error request)))).
Proof.
  intros H. unfold post_summarize, summarize_text.
  rewrite (summarize_text_try_rejected _ _ H). unfold raise, try_except.
  destruct (handle_exception_raises hstr TextSummarizeResponse
              (validation_error request)) as (c & d & -> & _).
  reflexivity.
Qed.

Lemma post_summarize_stream_rejected hstr (w : Writer)
    (request : TextSummarizeRequest) :
  passes_validation request = false ->
  post_summarize_stream hstr w request =
  ([], respond (snd (@handle_exception hstr StreamingResponse
                       (validation_error request)))).
Proof.
  intros H. unfold post_summarize_stream, summarize_text_stream.
  rewrite (summarize_text_stream_try_rejected _ _ _ H). unfold raise, try_except.
  destruct (handle_exception_raises hstr StreamingResponse
              (validation_error request)) as (c & d & -> & _).
  reflexivity.
Qed.

Lemma post_summarize_accepted hstr (w : Writer) (request : TextSummarizeRequest) :
  passes_validation request = true ->
  post_summarize hstr w request =
  ([Call (sync_kwargs request)],
   match shape_answer request (chat w (sync_kwargs request)) with
   | Return response => HTTP200 response
   | Raise e => respond (snd (@handle_exception hstr TextSummarizeResponse e))
   end).
Proof.
  intros H. unfold post_summarize, summarize_text.
  rewrite (summarize_text_try_accepted _ _ H). unfold try_except.
  destruct (shape_answer request _) as [response|e]; [reflexivity|].
  destruct (handle_exception_raises hstr TextSummarizeResponse e)
    as (c & d & -> & _).
  reflexivity.
Qed.

Lemma post_summarize_stream_accepted hstr (w : Writer)
    (request : TextSummarizeRequest) :
  passes_validation request = true ->
  post_summarize_stream hstr w request =
  (Call (stream_kwargs request)
     :: map Yield (stream_events (count_words (text request))
                     (chat_stream w (stream_kwargs request))),
   HTTP200 {| body := generate_stream hstr w request
                        (build_prompt (text request) (style request))
                        (count_words (text request));
              media_type := "text/event-stream";
              headers := [("Cache-Control", "no-cache");
                          ("Connection", "keep-alive");
                          ("X-Accel-Buffering", "no")] |}).
Proof.
  intros H. unfold post_summarize_stream, summarize_text_stream.
  rewrite (summarize_text_stream_try_accepted _ _ _ H).
  unfold ret, try_except. cbn [body app]. rewrite generate_stream_eq.
  reflexivity.
Qed.

(* ================================================================== *)
(** ** Validation failures (C1) *)

Example sample_lengths :
  PyStr.len (PyStr.strip Samples.chars49) = 49
  /\ PyStr.len (PyStr.strip Samples.word50) = 50
  /\ count_words Samples.word50 = 1
  /\ PyStr.len (PyStr.strip Samples.fox) = 64
  /\ count_words Samples.fox = 13.
Proof. repeat split; reflexivity. Qed.

(** With 50 characters the request goes through to the upstream call. *)
Example fifty_characters_are_accepted :
  calls (fst (post_summarize starlette_str Samples.answering
                (Samples.request Samples.word50)))
  = [sync_kwargs (Samples.request Samples.word50)]
  /\ calls (fst (post_summarize_stream starlette_str Samples.answering
                   (Samples.request Samples.word50)))
     = [stream_kwargs (Samples.request Samples.word50)].
Proof. split; reflexivity. Qed.

(** Whatever [str] makes of an [HTTPException], a request whose trimmed
    text has fewer than 50 characters reaches no upstream call, and on both
    endpoints the 400 raised by the validation is replaced by the [except]
    block: the status code that leaves the handler is 401, 429 or 500. *)
Lemma rejected_text_never_answered_400 hstr (w : Writer)
    (request : TextSummarizeRequest) :
  PyStr.len (PyStr.strip (text request)) < 50 ->
  exists status_code detail,
    post_summarize hstr w request = ([], HTTPError status_code detail)
    /\ post_summarize_stream hstr w request = ([], HTTPError status_code detail)
    /\ (status_code = 401 \/ status_code = 429 \/ status_code = 500).
Proof.
  intros Hlen.
  assert (Hrej : passes_validation request = false).
  { destruct (passes_validation request) eqn:E; [|reflexivity].
    apply passes_validation_iff in E. lia. }
  rewrite (post_summarize_rejected _ _ _ Hrej),
          (post_summarize_stream_rejected _ _ _ Hrej).
  unfold handle_exception.
  destruct (PyStr.contains "api_key" _);
    [|destruct (PyStr.contains "rate limit" _)];
    eexists; eexists; (split; [reflexivity|]); (split; [reflexivity|]); auto.
Qed.

(** C1, on the code: with Starlette's rendering of the exception, every
    request whose trimmed text has fewer than 50 characters (the empty and
    the blank text among them) is answered, on the synchronous and on the
    streaming endpoint alike and without any upstream call, by a 500
    whose detail quotes the 400 that the validation raised; the claim asks
    for a 400. *)
Theorem validation_error_is_answered_500 (w : Writer)
    (request : TextSummarizeRequest) :
  PyStr.len (PyStr.strip (text request)) < 50 ->
  exists message,
    post_summarize starlette_str w request
    = ([], HTTPError 500 ("Error generating summary: 400: " ++ message))
    /\ post_summarize_stream starlette_str w request
       = ([], HTTPError 500 ("Error generating summary: 400: " ++ message))
    /\ (message = "Text cannot be empty"
        \/ message = "Text must be at least 50 characters long").
Proof.
  intros Hlen.
  assert (Hrej : passes_validation request = false).
  { destruct (passes_validation request) eqn:E; [|reflexivity].
    apply passes_validation_iff in E. lia. }
  rewrite (post_summarize_rejected _ _ _ Hrej),
          (post_summarize_stream_rejected _ _ _ Hrej).
  unfold validation_error.
  destruct (PyStr.truthy (PyStr.strip (text request))).
  - exists "Text must be at least 50 characters long".
    split; [reflexivity|]. split; [reflexivity|]. now right.
  - exists "Text cannot be empty".
    split; [reflexivity|]. split; [reflexivity|]. now left.
Qed.

Lemma validation_error_is_answered_500_witness :
  PyStr.len (PyStr.strip (text (Samples.request ""))) < 50
  /\ PyStr.len (PyStr.strip (text (Samples.request Samples.chars49))) < 50
  /\ (exists message,
        post_summarize starlette_str Samples.answering (Samples.request "")
        = ([], HTTPError 500 ("Error generating summary: 400: " ++ message))
        /\ post_summarize_stream starlette_str Samples.answering
             (Samples.request "")
           = ([], HTTPError 500 ("Error generating summary: 400: " ++ message))
        /\ (message = "Text cannot be empty"
            \/ message = "Text must be at least 50 characters long"))
  /\ post_summarize starlette_str Samples.answering
       (Samples.request Samples.chars49)
     = ([], HTTPError 500
          "Error generating summary: 400: Text must be at least 50 characters long").
Proof.
  assert (H0 : PyStr.len (PyStr.strip (text (Samples.request ""))) < 50)
    by reflexivity.
  assert (H49 : PyStr.len (PyStr.strip (text (Samples.request Samples.chars49)))
                < 50) by reflexivity.
  split; [exact H0|]. split; [exact H49|]. split; [|reflexivity].
  exact (validation_error_is_answered_500 Samples.answering
           (Samples.request "") H0).
Defined.

(* ================================================================== *)
(** ** A failure of the call that opens the stream (C2) *)

(** The failing input of C2, a bad credential: the request passes
    validation, the call that opens the stream raises, and the endpoint
    answers with the 200 event stream, whose only event is the error; no
    HTTP error response is produced. *)
Lemma stream_open_failure_counterexample :
  passes_validation (Samples.request Samples.fox) = true
  /\ chat_stream (Samples.failing "Invalid api_key")
       (stream_kwargs (Samples.request Samples.fox)) = Raises "Invalid api_key"
  /\ ~ (exists status_code detail,
          snd (post_summarize_stream starlette_str
                 (Samples.failing "Invalid api_key")
                 (Samples.request Samples.fox))
          = HTTPError status_code detail)
  /\ yielded (fst (post_summarize_stream starlette_str
                     (Samples.failing "Invalid api_key")
                     (Samples.request Samples.fox)))
     = [error "Invalid api_key"].
Proof.
  split; [reflexivity|]. split; [reflexivity|]. split; [|reflexivity].
  intros (c & d & H). vm_compute in H. discriminate H.
Qed.

(** C2, on the code: when the request passes validation and the call that
    opens the stream raises, the endpoint has made that one call and
    answers 200 with the event stream, which consists of a single [error]
    event carrying the text of the exception.  The claim asks for the 401,
    429 or 500 of the [except] block of the handler (main.py:243-259);
    that block never sees the exception, since the call is made inside the
    generator, after the handler has returned. *)
Theorem stream_open_failure_is_an_error_event hstr (w : Writer)
    (request : TextSummarizeRequest) (str_e : string) :
  50 <= PyStr.len (PyStr.strip (text request)) ->
  chat_stream w (stream_kwargs request) = Raises str_e ->
  exists response,
    post_summarize_stream hstr w request
      = ([Call (stream_kwargs request); Yield (error str_e)], HTTP200 response)
    /\ media_type response = "text/event-stream"
    /\ yielded (fst (body response)) = [error str_e].
Proof.
  intros Hlen Hopen. apply passes_validation_iff in Hlen.
  rewrite (post_summarize_stream_accepted _ _ _ Hlen), Hopen.
  eexists. split; [reflexivity|]. split; [reflexivity|].
  cbn [body]. rewrite generate_stream_eq.
  fold (stream_kwargs request). rewrite Hopen. reflexivity.
Qed.

Lemma stream_open_failure_witness :
  50 <= PyStr.len (PyStr.strip (text (Samples.request Samples.fox)))
  /\ chat_stream (Samples.failing "rate limit exceeded")
       (stream_kwargs (Samples.request Samples.fox))
     = Raises "rate limit exceeded"
  /\ exists response,
       post_summarize_stream starlette_str (Samples.failing "rate limit exceeded")
         (Samples.request Samples.fox)
       = ([Call (stream_kwargs (Samples.request Samples.fox));
           Yield (error "rate limit exceeded")], HTTP200 response)
       /\ media_type response = "text/event-stream"
       /\ yielded (fst (body response)) = [error "rate limit exceeded"].
Proof.
  assert (H1 : 50 <= PyStr.len (PyStr.strip (text (Samples.request Samples.fox))))
    by (vm_compute; discriminate).
  assert (H2 : chat_stream (Samples.failing "rate limit exceeded")
                 (stream_kwargs (Samples.request Samples.fox))
               = Raises "rate limit exceeded") by reflexivity.
  split; [exact H1|]. split; [exact H2|].
  exact (stream_open_failure_is_an_error_event starlette_str
           (Samples.failing "rate limit exceeded")
           (Samples.request Samples.fox) "rate limit exceeded" H1 H2).
Defined.

(* ================================================================== *)
(** ** Classification of exceptions by the synchronous handler (C3) *)

(** The test of the code, [indicator in s.lower()], is that match. *)
Lemma contains_lower_iff (indicator s : string) :
  PyStr.contains indicator (PyStr.lower s) = true <-> mentions indicator s.
Proof.
  rewrite PyStrFacts.contains_iff. unfold mentions. split.
  - intros (pre & post & H).
    destruct (PyStrFacts.lower_split _ _ _ H) as (s1 & s23 & -> & _ & H23).
    destruct (PyStrFacts.lower_split _ _ _ H23) as (s2 & s3 & -> & H2 & _).
    now exists s1, s2, s3.
  - intros (pre & mid & post & -> & Hmid).
    exists (PyStr.lower pre), (PyStr.lower post).
    now rewrite !PyStrFacts.lower_app, Hmid.
Qed.

Lemma not_contains_lower_iff (indicator s : string) :
  PyStr.contains indicator (PyStr.lower s) = false <-> ~ mentions indicator s.
Proof.
  rewrite <- contains_lower_iff. destruct (PyStr.contains _ _); split;
    congruence.
Qed.

(** No exception other than an [HTTPException] leaves the synchronous
    handler, whatever the request and the client. *)
Lemma post_summarize_handled hstr (w : Writer) (request : TextSummarizeRequest)
    (str_e : string) :
  snd (post_summarize hstr w request) <> Unhandled str_e.
Proof.
  unfold post_summarize, summarize_text, try_except.
  destruct (summarize_text_try w request) as [tr [response|e]].
  - discriminate.
  - destruct (handle_exception_raises hstr TextSummarizeResponse e)
      as (c & d & -> & _).
    discriminate.
Qed.

(** C3: when the work of the synchronous handler raises [e], the answer is
    chosen by case-insensitive substring match on [str(e)]: 401 with the
    fixed message if it mentions [api_key]; otherwise 429 with the fixed
    message if it mentions [rate limit]; otherwise 500 with [str(e)]
    interpolated; and it is never an unhandled fault. *)
Theorem sync_exception_classification hstr (w : Writer)
    (request : TextSummarizeRequest) (tr : list Effect) (e : PyException) :
  summarize_text_try w request = (tr, Raise e) ->
  (mentions "api_key" (str hstr e) ->
   post_summarize hstr w request
   = (tr, HTTPError 401
        "Writer API key not configured. Please set WRITER_API_KEY environment variable."))
  /\ (~ mentions "api_key" (str hstr e) -> mentions "rate limit" (str hstr e) ->
      post_summarize hstr w request
      = (tr, HTTPError 429 "Rate limit exceeded. Please try again later."))
  /\ (~ mentions "api_key" (str hstr e) -> ~ mentions "rate limit" (str hstr e) ->
      post_summarize hstr w request
      = (tr, HTTPError 500 ("Error generating summary: " ++ str hstr e)))
  /\ (forall str_e, snd (post_summarize hstr w request) <> Unhandled str_e).
Proof.
  intros Hraise.
  assert (Heq : post_summarize hstr w request
                = (tr, respond (snd (@handle_exception hstr
                                       TextSummarizeResponse e)))).
  { unfold post_summarize, summarize_text. rewrite Hraise. unfold try_except.
    destruct (handle_exception_raises hstr TextSummarizeResponse e)
      as (c & d & -> & _).
    cbn [snd]. now rewrite app_nil_r. }
  split; [|split; [|split]]; [| | |intros str_e; apply post_summarize_handled];
    rewrite Heq; unfold handle_exception.
  - intros Hk. apply contains_lower_iff in Hk. now rewrite Hk.
  - intros Hk Hr. apply not_contains_lower_iff in Hk.
    apply contains_lower_iff in Hr. now rewrite Hk, Hr.
  - intros Hk Hr. apply not_contains_lower_iff in Hk.
    apply not_contains_lower_iff in Hr. now rewrite Hk, Hr.
Qed.

Lemma sync_exception_classification_witness :
  summarize_text_try (Samples.failing "Invalid API_Key supplied")
    (Samples.request Samples.fox)
  = ([Call (sync_kwargs (Samples.request Samples.fox))],
     Raise (Exception "Invalid API_Key supplied"))
  /\ mentions "api_key" (str starlette_str (Exception "Invalid API_Key supplied"))
  /\ post_summarize starlette_str (Samples.failing "Invalid API_Key supplied")
       (Samples.request Samples.fox)
     = ([Call (sync_kwargs (Samples.request Samples.fox))],
        HTTPError 401
          "Writer API key not configured. Please set WRITER_API_KEY environment variable.").
Proof.
  assert (H : summarize_text_try (Samples.failing "Invalid API_Key supplied")
                (Samples.request Samples.fox)
              = ([Call (sync_kwargs (Samples.request Samples.fox))],
                 Raise (Exception "Invalid API_Key supplied")))
    by reflexivity.
  assert (Hm : mentions "api_key"
                 (str starlette_str (Exception "Invalid API_Key supplied")))
    by (exists "Invalid ", "API_Key", " supplied"; split; reflexivity).
  split; [exact H|]. split; [exact Hm|].
  exact (proj1 (sync_exception_classification starlette_str _ _ _ _ H) Hm).
Defined.

(** The three outcomes on the sample client: an upper-case rate-limit
    message gives 429, any other message gives 500 with the message, and
    an API-key message that also mentions the rate limit gives 401. *)
Example sync_exception_samples :
  snd (post_summarize starlette_str (Samples.failing "Rate Limit reached")
         (Samples.request Samples.fox))
  = HTTPError 429 "Rate limit exceeded. Please try again later."
  /\ snd (post_summarize starlette_str (Samples.failing "connection reset")
            (Samples.request Samples.fox))
     = HTTPError 500 "Error generating summary: connection reset"
  /\ snd (post_summarize starlette_str
            (Samples.failing "rate limit for this API_KEY")
            (Samples.request Samples.fox))
     = HTTPError 401
         "Writer API key not configured. Please set WRITER_API_KEY environment variable.".
Proof. repeat split; reflexivity. Qed.

(* ================================================================== *)
(** ** The event stream (C4, C5, C8) *)

Lemma chunk_contents_stream (parts : list string) (t : StreamEvent) :
  terminal t = true -> chunk_contents (map chunk parts ++ [t])%list = parts.
Proof.
  intros Ht. unfold chunk_contents.
  induction parts as [|p parts IH]; simpl.
  - destruct t; [discriminate | reflexivity | reflexivity].
  - now rewrite IH.
Qed.

Lemma terminal_count_stream (parts : list string) (t : StreamEvent) :
  terminal t = true ->
  List.length (filter terminal (map chunk parts ++ [t])%list) = 1%nat.
Proof.
  intros Ht. induction parts as [|p parts IH]; simpl.
  - now rewrite Ht.
  - exact IH.
Qed.

(** One run of the generator yields text increments and then one terminal
    event; a [complete] event carries the joined increments and the
    statistics computed from them. *)
Lemma stream_events_shape (o : Z) (answer : Upstream ChunkStream) :
  exists parts t,
    stream_events o answer = (map chunk parts ++ [t])%list
    /\ terminal t = true
    /\ forall summary o' sw r,
         t = complete summary o' sw r ->
         summary = join parts /\ o' = o /\ sw = count_words summary
         /\ r = calc_compression_ratio sw o.
Proof.
  destruct answer as [s|str_e]; cbn [stream_events].
  - exists (increments (chunks s)). eexists. split; [reflexivity|].
    destruct (interruption (chunks s) (stream_failure s)).
    + split; [reflexivity | discriminate].
    + split; [reflexivity|]. intros summary o' sw r H.
      injection H as <- <- <- <-. auto.
  - exists [], (error str_e). split; [reflexivity|].
    split; [reflexivity | discriminate].
Qed.

Lemma in_stream_terminal (parts : list string) (t ev : StreamEvent) :
  In ev (map chunk parts ++ [t])%list -> terminal ev = true -> ev = t.
Proof.
  intros Hin Hev. apply in_app_or in Hin. destruct Hin as [Hin | [<- | []]].
  - apply in_map_iff in Hin. destruct Hin as (p & <- & _). discriminate.
  - reflexivity.
Qed.

Lemma in_map_Yield (ev : StreamEvent) (evs : list StreamEvent) :
  In (Yield ev) (map Yield evs) -> In ev evs.
Proof.
  intros H. apply in_map_iff in H. destruct H as (ev' & E & H).
  now injection E as ->.
Qed.

(** Every [complete] event the streaming endpoint emits comes from the
    generator run on a request that passed validation. *)
Lemma complete_event_origin hstr (w : Writer) (request : TextSummarizeRequest)
    (ev : StreamEvent) :
  In (Yield ev) (fst (post_summarize_stream hstr w request)) ->
  passes_validation request = true
  /\ yielded (fst (post_summarize_stream hstr w request))
     = stream_events (count_words (text request))
         (chat_stream w (stream_kwargs request))
  /\ In ev (stream_events (count_words (text request))
              (chat_stream w (stream_kwargs request))).
Proof.
  destruct (passes_validation request) eqn:Hv.
  - rewrite (post_summarize_stream_accepted _ _ _ Hv). cbn [fst].
    intros [H | H]; [discriminate|]. split; [reflexivity|].
    split; [|now apply in_map_Yield].
    unfold yielded. cbn [flat_map app]. apply yielded_map_Yield.
  - rewrite (post_summarize_stream_rejected _ _ _ Hv). intros [].
Qed.

(** When the stream opens, ends without raising and each of its chunks
    has a choice, the generator ends with [complete]. *)
Lemma interruption_none (cs : list ChatCompletionChunk) :
  Forall (fun c => chunk_choices c <> []) cs -> interruption cs None = None.
Proof.
  induction 1 as [|c cs Hc _ IH]; simpl; [reflexivity|].
  destruct (chunk_choices c); [congruence | exact IH].
Qed.

(** A stream that breaks after its first chunk: the chunk is forwarded and
    the stream ends with the [error] event that carries the text of the
    exception, unclassified. *)
Example stream_broken_midway :
  post_summarize_stream starlette_str (Samples.breaking "rate limit exceeded")
    (Samples.request Samples.fox)
  = ([Call (stream_kwargs (Samples.request Samples.fox));
      Yield (chunk "A fox");
      Yield (error "rate limit exceeded")],
     HTTP200 {| body := generate_stream starlette_str
                          (Samples.breaking "rate limit exceeded")
                          (Samples.request Samples.fox)
                          (build_prompt Samples.fox (Some "concise"))
                          13;
                media_type := "text/event-stream";
                headers := [("Cache-Control", "no-cache");
                            ("Connection", "keep-alive");
                            ("X-Accel-Buffering", "no")] |}).
Proof. reflexivity. Qed.

(** C4: on the streaming endpoint, a [complete] event is preceded by
    exactly the [chunk] events of the stream and its [summary] is the
    concatenation of their [content] values in emission order; and such an
    event is emitted whenever the request passes validation and the
    upstream stream opens, gives a choice in each chunk and ends without
    raising. *)
Theorem stream_summary_is_concatenation hstr (w : Writer)
    (request : TextSummarizeRequest) :
  (forall summary o sw r,
     In (Yield (complete summary o sw r))
        (fst (post_summarize_stream hstr w request)) ->
     yielded (fst (post_summarize_stream hstr w request))
     = (map chunk (chunk_contents
                     (yielded (fst (post_summarize_stream hstr w request))))
          ++ [complete summary o sw r])%list
     /\ summary
        = join (chunk_contents
                  (yielded (fst (post_summarize_stream hstr w request)))))
  /\ (forall s,
        passes_validation request = true ->
        chat_stream w (stream_kwargs request) = Returns s ->
        stream_failure s = None ->
        Forall (fun c => chunk_choices c <> []) (chunks s) ->
        exists summary o sw r,
          In (Yield (complete summary o sw r))
             (fst (post_summarize_stream hstr w request))).
Proof.
  split.
  - intros summary o sw r Hin.
    destruct (complete_event_origin _ _ _ _ Hin) as (_ & -> & Hev).
    destruct (stream_events_shape (count_words (text request))
                (chat_stream w (stream_kwargs request)))
      as (parts & t & E & Ht & Hc).
    rewrite E in *.
    apply in_stream_terminal in Hev; [|reflexivity]. subst t.
    rewrite (chunk_contents_stream _ _ Ht).
    split; [reflexivity|]. now destruct (Hc _ _ _ _ eq_refl).
  - intros s Hv Hopen Hend Hchoices.
    rewrite (post_summarize_stream_accepted _ _ _ Hv), Hopen.
    cbn [fst stream_events]. rewrite Hend, (interruption_none _ Hchoices).
    do 4 eexists. right. apply in_map. apply in_or_app. right. left.
    reflexivity.
Qed.

Lemma stream_summary_is_concatenation_witness :
  In (Yield (complete "A fox jumps." 13 3 76.9%float))
     (fst (post_summarize_stream starlette_str Samples.answering
             (Samples.request Samples.fox)))
  /\ yielded (fst (post_summarize_stream starlette_str Samples.answering
                     (Samples.request Samples.fox)))
     = [chunk "A fox"; chunk " jumps."; complete "A fox jumps." 13 3 76.9%float]
  /\ "A fox jumps."
     = join (chunk_contents
               (yielded (fst (post_summarize_stream starlette_str
                                Samples.answering
                                (Samples.request Samples.fox))))).
Proof.
  assert (H : In (Yield (complete "A fox jumps." 13 3 76.9%float))
                (fst (post_summarize_stream starlette_str Samples.answering
                        (Samples.request Samples.fox))))
    by (vm_compute; tauto).
  split; [exact H|]. split; [reflexivity|].
  exact (proj2 (proj1 (stream_summary_is_concatenation starlette_str
                         Samples.answering (Samples.request Samples.fox))
                  _ _ _ _ H)).
Defined.

(** C5: every run of the generator, whatever the client does, yields zero
    or more [chunk] events and then exactly one terminal event, [complete]
    or [error], after which it returns: the terminal event is the last
    event and the only terminal one. *)
Theorem one_terminal_event_ends_the_stream hstr (w : Writer)
    (request : TextSummarizeRequest) (prompt : string) (o : Z) :
  exists parts t,
    yielded (fst (generate_stream hstr w request prompt o))
    = (map chunk parts ++ [t])%list
    /\ terminal t = true
    /\ List.length
         (filter terminal
            (yielded (fst (generate_stream hstr w request prompt o)))) = 1%nat
    /\ snd (generate_stream hstr w request prompt o) = Return tt.
Proof.
  rewrite generate_stream_eq. cbn [fst snd].
  destruct (stream_events_shape o
              (chat_stream w (chat_kwargs request prompt true)))
    as (parts & t & E & Ht & _).
  exists parts, t.
  assert (Hy : yielded (Call (chat_kwargs request prompt true)
                 :: map Yield (stream_events o
                      (chat_stream w (chat_kwargs request prompt true))))
               = (map chunk parts ++ [t])%list).
  { unfold yielded. cbn [flat_map app]. fold (yielded (map Yield
      (stream_events o (chat_stream w (chat_kwargs request prompt true))))).
    now rewrite yielded_map_Yield. }
  rewrite Hy. split; [reflexivity|]. split; [exact Ht|].
  split; [now apply terminal_count_stream | reflexivity].
Qed.

(** The same at the endpoint: a request either is answered by an HTTP
    error and no event, or by the 200 stream with that shape. *)
Lemma stream_endpoint_shape hstr (w : Writer) (request : TextSummarizeRequest) :
  (exists status_code detail,
     post_summarize_stream hstr w request = ([], HTTPError status_code detail))
  \/ (exists response parts t,
        snd (post_summarize_stream hstr w request) = HTTP200 response
        /\ yielded (fst (post_summarize_stream hstr w request))
           = (map chunk parts ++ [t])%list
        /\ terminal t = true).
Proof.
  destruct (passes_validation request) eqn:Hv.
  - right. rewrite (post_summarize_stream_accepted _ _ _ Hv). cbn [fst snd].
    destruct (stream_events_shape (count_words (text request))
                (chat_stream w (stream_kwargs request)))
      as (parts & t & E & Ht & _).
    eexists. exists parts, t. split; [reflexivity|]. split; [|exact Ht].
    unfold yielded. cbn [flat_map app].
    fold (yielded (map Yield (stream_events (count_words (text request))
                                (chat_stream w (stream_kwargs request))))).
    now rewrite yielded_map_Yield.
  - left. rewrite (post_summarize_stream_rejected _ _ _ Hv).
    destruct (handle_exception_raises hstr StreamingResponse
                (validation_error request)) as (c & d & -> & _).
    now exists c, d.
Qed.

Lemma relay_skips (c : ChatCompletionChunk) (cs : list ChatCompletionChunk)
    (failure : option string) (summary_text : string) :
  carries_no_text c -> chunk_choices c <> [] ->
  relay (c :: cs) failure summary_text = relay cs failure summary_text.
Proof.
  unfold carries_no_text. intros Hc Hne. cbn [relay].
  destruct (chunk_choices c) as [|d rest]; [congruence|].
  inversion Hc as [|? ? Hd _]; subst. cbn [index0].
  rewrite bind_ret, Hd. reflexivity.
Qed.

Lemma relay_stops_without_choice (c : ChatCompletionChunk)
    (before after : list ChatCompletionChunk) (failure : option string) :
  chunk_choices c = [] ->
  Forall (fun b => chunk_choices b <> []) before ->
  forall summary_text,
    relay (before ++ c :: after) failure summary_text
    = (fst (relay before None summary_text),
       Raise (Exception "list index out of range")).
Proof.
  intros Hc Hb. induction Hb as [|b before Hne _ IH]; intros acc.
  - cbn [app relay]. rewrite Hc. reflexivity.
  - cbn [app relay]. destruct (chunk_choices b) as [|d ds]; [congruence|].
    cbn [index0]. rewrite !bind_ret.
    destruct (delta_text d) as [content|].
    + rewrite !bind_perform, IH. reflexivity.
    + apply IH.
Qed.

(** C8, on the code: of a chunk that carries no text, the one that has a
    choice is skipped, wherever it comes in the stream: the loop and the
    generator yield the same events, accumulate the same text and end the
    same way as without it.  The one that has no choice at all is not
    tolerated: indexing it raises, so after the chunks before it have
    been relayed the loop stops, the chunks after it are not read, and the
    generator ends the stream with the [error] event of the index error;
    the claim asks for it to be skipped like the others. *)
Theorem chunk_without_text_is_skipped_unless_without_choice
    (c : ChatCompletionChunk) :
  carries_no_text c ->
  (chunk_choices c <> [] ->
   (forall before after failure summary_text,
      relay (before ++ c :: after) failure summary_text
      = relay (before ++ after) failure summary_text)
   /\ (forall hstr w w' request prompt o before after failure,
         chat_stream w (chat_kwargs request prompt true)
         = Returns {| chunks := before ++ c :: after;
                      stream_failure := failure |} ->
         chat_stream w' (chat_kwargs request prompt true)
         = Returns {| chunks := before ++ after; stream_failure := failure |} ->
         generate_stream hstr w request prompt o
         = generate_stream hstr w' request prompt o))
  /\ (chunk_choices c = [] ->
      forall before after failure,
        Forall (fun b => chunk_choices b <> []) before ->
        (forall summary_text,
           relay (before ++ c :: after) failure summary_text
           = (fst (relay before None summary_text),
              Raise (Exception "list index out of range")))
        /\ (forall hstr w request prompt o,
              chat_stream w (chat_kwargs request prompt true)
              = Returns {| chunks := before ++ c :: after;
                           stream_failure := failure |} ->
              yielded (fst (generate_stream hstr w request prompt o))
              = (yielded (fst (relay before None EmptyString))
                 ++ [error "list index out of range"])%list)).
Proof.
  intros Hc. split.
  - intros Hne.
    assert (Hrelay : forall before after failure summary_text,
               relay (before ++ c :: after) failure summary_text
               = relay (before ++ after) failure summary_text).
    { induction before as [|b before IH]; intros after failure acc.
      - now apply relay_skips.
      - cbn [app relay]. destruct (index0 (chunk_choices b)) as [tr [d|e]].
        + rewrite !bind_return. destruct (delta_text d) as [content|].
          * rewrite !bind_perform. now rewrite IH.
          * now rewrite IH.
        + reflexivity. }
    split; [exact Hrelay|].
    intros hstr w w' request prompt o before after failure Hw Hw'.
    unfold generate_stream. rewrite !call_chat_stream_eq, Hw, Hw'.
    rewrite !bind_return. cbn [chunks stream_failure]. now rewrite Hrelay.
  - intros Hnil before after failure Hb.
    pose proof (relay_stops_without_choice c before after failure Hnil Hb)
      as Hstop.
    split; [exact Hstop|].
    intros hstr w request prompt o Hw.
    unfold generate_stream. rewrite call_chat_stream_eq, Hw.
    rewrite bind_return. cbn [chunks stream_failure]. rewrite Hstop.
    cbn [app bind fst snd try_except perform str].
    unfold yielded. cbn [flat_map app]. rewrite flat_map_app.
    reflexivity.
Qed.

Lemma chunk_without_text_is_skipped_unless_without_choice_witness :
  carries_no_text {| chunk_choices := [delta_content None] |}
  /\ chunk_choices {| chunk_choices := [delta_content None] |} <> []
  /\ relay ([Samples.has "A fox"]
            ++ {| chunk_choices := [delta_content None] |}
               :: [Samples.has " jumps."]) None ""
     = ([Yield (chunk "A fox"); Yield (chunk " jumps.")], Return "A fox jumps.")
  /\ carries_no_text {| chunk_choices := [] |}
  /\ Forall (fun b => chunk_choices b <> []) [Samples.has "A fox"]
  /\ relay ([Samples.has "A fox"]
            ++ {| chunk_choices := [] |} :: [Samples.has " jumps."]) None ""
     = ([Yield (chunk "A fox")], Raise (Exception "list index out of range")).
Proof.
  assert (H : carries_no_text {| chunk_choices := [delta_content None] |})
    by (repeat constructor).
  assert (Hne : chunk_choices {| chunk_choices := [delta_content None] |} <> [])
    by discriminate.
  assert (H0 : carries_no_text {| chunk_choices := [] |}) by constructor.
  assert (Hb : Forall (fun b => chunk_choices b <> []) [Samples.has "A fox"])
    by (repeat constructor; discriminate).
  split; [exact H|]. split; [exact Hne|]. split.
  - rewrite (proj1 (proj1 (chunk_without_text_is_skipped_unless_without_choice
                             _ H) Hne)
               [Samples.has "A fox"] [Samples.has " jumps."] None "").
    reflexivity.
  - split; [exact H0|]. split; [exact Hb|].
    rewrite (proj1 (proj2 (chunk_without_text_is_skipped_unless_without_choice
                             _ H0) eq_refl
                      [Samples.has "A fox"] [Samples.has " jumps."] None Hb)
               "").
    reflexivity.
Defined.

(** The ways a chunk carries no text. *)
Example chunks_without_text :
  carries_no_text {| chunk_choices := [delta_without_content] |}
  /\ carries_no_text {| chunk_choices := [delta_content None] |}
  /\ carries_no_text {| chunk_choices := [delta_content (Some "")] |}
  /\ carries_no_text {| chunk_choices := [] |}.
Proof. repeat split; repeat constructor. Qed.

(** The chunk without any choice at the endpoint: the stream ends with an
    [error] event and the chunk after it is not relayed. *)
Example chunk_without_choices :
  yielded (fst (post_summarize_stream starlette_str
                  {| chat := fun _ => Raises "unused";
                     chat_stream := fun _ =>
                       Returns {| chunks := [Samples.has "A fox";
                                             {| chunk_choices := [] |};
                                             Samples.has " jumps."];
                                  stream_failure := None |} |}
                  (Samples.request Samples.fox)))
  = [chunk "A fox"; error "list index out of range"].
Proof. reflexivity. Qed.

(* ================================================================== *)
(** ** The compression ratio (C6) *)

Lemma post_summarize_success hstr (w : Writer) (request : TextSummarizeRequest)
    (tr : list Effect) (response : TextSummarizeResponse) :
  post_summarize hstr w request = (tr, HTTP200 response) ->
  passes_validation request = true
  /\ original_word_count response = count_words (text request)
  /\ summary_word_count response = count_words (summary response)
  /\ compression_ratio response
     = calc_compression_ratio (summary_word_count response)
                              (original_word_count response).
Proof.
  destruct (passes_validation request) eqn:Hv.
  - rewrite (post_summarize_accepted _ _ _ Hv). unfold shape_answer.
    destruct (chat w (sync_kwargs request)) as [answer|str_e].
    + destruct (choices answer) as [|[content|] rest].
      * destruct (handle_exception_raises hstr TextSummarizeResponse
                    (Exception "list index out of range")) as (c & d & -> & _).
        discriminate.
      * intros H. injection H as _ <-. cbn. auto.
      * destruct (handle_exception_raises hstr TextSummarizeResponse
                    (Exception "'NoneType' object has no attribute 'strip'"))
          as (c & d & -> & _).
        discriminate.
    + destruct (handle_exception_raises hstr TextSummarizeResponse
                  (Exception str_e)) as (c & d & -> & _).
      discriminate.
  - rewrite (post_summarize_rejected _ _ _ Hv).
    destruct (handle_exception_raises hstr TextSummarizeResponse
                (validation_error request)) as (c & d & -> & _).
    discriminate.
Qed.

Lemma passes_validation_words (request : TextSummarizeRequest) :
  passes_validation request = true -> 0 < count_words (text request).
Proof.
  unfold passes_validation. rewrite andb_true_iff. intros [Ht _].
  now apply count_words_pos.
Qed.

(** C6: the expression of the source is [round((1 - s/o) * 100, 1)] when
    [o > 0] and zero when [o = 0]; it is the [compression_ratio] of every
    200 answer of the synchronous endpoint and of every [complete] event of
    the streaming endpoint, with [o] the word count of the request text
    (positive there) and [s] that of the summary; and it is not clamped: a
    summary of three words for a text of one word gives -200. *)
Theorem compression_ratio_is_the_rounded_formula :
  (forall s o, 0 < o -> calc_compression_ratio s o = ratio_formula s o)
  /\ (forall s, calc_compression_ratio s 0 = 0%float)
  /\ (forall hstr w request tr response,
        post_summarize hstr w request = (tr, HTTP200 response) ->
        original_word_count response = count_words (text request)
        /\ summary_word_count response = count_words (summary response)
        /\ 0 < original_word_count response
        /\ compression_ratio response
           = ratio_formula (summary_word_count response)
                           (original_word_count response))
  /\ (forall hstr w request summary o s r,
        In (Yield (complete summary o s r))
           (fst (post_summarize_stream hstr w request)) ->
        o = count_words (text request)
        /\ s = count_words summary
        /\ 0 < o
        /\ r = ratio_formula s o)
  /\ (exists w request tr response,
        post_summarize starlette_str w request = (tr, HTTP200 response)
        /\ summary_word_count response = 3
        /\ original_word_count response = 1
        /\ compression_ratio response = (-200)%float).
Proof.
  assert (Hpos : forall s o, 0 < o -> calc_compression_ratio s o = ratio_formula s o).
  { intros s o Ho. unfold calc_compression_ratio, ratio_formula.
    apply Z.ltb_lt in Ho. now rewrite Ho. }
  split; [exact Hpos|]. split; [reflexivity|]. split; [|split].
  - intros hstr w request tr response H.
    destruct (post_summarize_success _ _ _ _ _ H) as (Hv & Ho & Hs & Hr).
    apply passes_validation_words in Hv.
    split; [exact Ho|]. split; [exact Hs|].
    rewrite Hr. split; [now rewrite Ho|]. apply Hpos. now rewrite Ho.
  - intros hstr w request summary o s r Hin.
    destruct (complete_event_origin _ _ _ _ Hin) as (Hv & _ & Hev).
    apply passes_validation_words in Hv.
    destruct (stream_events_shape (count_words (text request))
                (chat_stream w (stream_kwargs request)))
      as (parts & t & E & Ht & Hc).
    rewrite E in Hev. apply in_stream_terminal in Hev; [|reflexivity].
    destruct (Hc _ _ _ _ (eq_sym Hev)) as (_ & -> & -> & ->).
    split; [reflexivity|]. split; [reflexivity|]. split; [exact Hv|].
    now apply Hpos.
  - exists Samples.answering, (Samples.request Samples.word50).
    eexists. eexists. split; [reflexivity|]. repeat split.
Qed.

Lemma compression_ratio_is_the_rounded_formula_witness :
  post_summarize starlette_str Samples.answering (Samples.request Samples.fox)
  = ([Call (sync_kwargs (Samples.request Samples.fox))],
     HTTP200 {| summary := "A fox jumps.";
                original_word_count := 13;
                summary_word_count := 3;
                compression_ratio := 76.9%float |})
  /\ 0 < 13
  /\ 76.9%float = ratio_formula 3 13
  /\ calc_compression_ratio 3 13 = ratio_formula 3 13.
Proof.
  assert (H : post_summarize starlette_str Samples.answering
                (Samples.request Samples.fox)
              = ([Call (sync_kwargs (Samples.request Samples.fox))],
                 HTTP200 {| summary := "A fox jumps.";
                            original_word_count := 13;
                            summary_word_count := 3;
                            compression_ratio := 76.9%float |}))
    by reflexivity.
  assert (H13 : 0 < 13) by lia.
  split; [exact H|]. split; [exact H13|]. split.
  - exact (proj2 (proj2 (proj2
      (proj1 (proj2 (proj2 compression_ratio_is_the_rounded_formula))
         starlette_str Samples.answering (Samples.request Samples.fox) _ _ H)))).
  - exact (proj1 compression_ratio_is_the_rounded_formula 3 13 H13).
Defined.

(** Some values of the ratio, as Python prints them: 66.7, 100.0 (from
    99.95, which the float arithmetic puts above the tie), 97.3, 87.5,
    0.0 and -200.0. *)
Example compression_ratio_samples :
  calc_compression_ratio 1 3 = 66.7%float
  /\ calc_compression_ratio 1 2000 = 100%float
  /\ calc_compression_ratio 123 4567 = 97.3%float
  /\ calc_compression_ratio 1 8 = 87.5%float
  /\ calc_compression_ratio 7 7 = 0%float
  /\ calc_compression_ratio 3 1 = (-200)%float.
Proof. repeat split; reflexivity. Qed.

(* ================================================================== *)
(** ** Prompt building (C7) *)

(** The calls either endpoint makes are at most one, with the arguments
    built from the request. *)
Lemma endpoint_calls hstr (w : Writer) (request : TextSummarizeRequest) :
  (passes_validation request = true
   /\ calls (fst (post_summarize hstr w request)) = [sync_kwargs request]
   /\ calls (fst (post_summarize_stream hstr w request)) = [stream_kwargs request])
  \/ (passes_validation request = false
      /\ calls (fst (post_summarize hstr w request)) = []
      /\ calls (fst (post_summarize_stream hstr w request)) = []).
Proof.
  destruct (passes_validation request) eqn:Hv; [left | right];
    (split; [reflexivity|]).
  - rewrite (post_summarize_accepted _ _ _ Hv),
            (post_summarize_stream_accepted _ _ _ Hv).
    split; [reflexivity|]. cbn [fst]. unfold calls. cbn [flat_map app].
    fold (calls (map Yield (stream_events (count_words (text request))
                              (chat_stream w (stream_kwargs request))))).
    now rewrite calls_map_Yield.
  - rewrite (post_summarize_rejected _ _ _ Hv),
            (post_summarize_stream_rejected _ _ _ Hv).
    split; reflexivity.
Qed.

Lemma style_is_false (style : option string) (name : string) :
  style <> Some name -> style_is style name = false.
Proof.
  destruct style as [s|]; simpl; [|reflexivity].
  intros H. apply String.eqb_neq. congruence.
Qed.

(** C7: [build_prompt] is defined on every text and every style, also
    [None].  For [bullet_points] it is the bullet-point instruction, for
    [detailed] the detailed one, each with the text between its heading and
    its ending; every other style, [None] included, gets the concise
    instruction.  The three prompts differ from one another whatever the
    texts.  And the prompt so built is the one message, from the user, of
    every upstream call of both endpoints. *)
Theorem build_prompt_by_style :
  (forall t,
     build_prompt t (Some "bullet_points")
     = "Please summarize the following text in bullet points format. Focus on the key points and main ideas:"
       ++ LF ++ LF ++ t ++ LF ++ LF ++ "Summary (bullet points):")
  /\ (forall t,
        build_prompt t (Some "detailed")
        = "Please provide a detailed summary of the following text, maintaining important details and context:"
          ++ LF ++ LF ++ t ++ LF ++ LF ++ "Detailed summary:")
  /\ (forall t style,
        style <> Some "bullet_points" -> style <> Some "detailed" ->
        build_prompt t style
        = "Please provide a concise summary of the following text, capturing the main points in a clear and brief manner:"
          ++ LF ++ LF ++ t ++ LF ++ LF ++ "Concise summary:")
  /\ (forall t1 t2,
        build_prompt t1 (Some "bullet_points") <> build_prompt t2 (Some "detailed"))
  /\ (forall t1 t2 style,
        style <> Some "bullet_points" -> style <> Some "detailed" ->
        build_prompt t1 (Some "bullet_points") <> build_prompt t2 style
        /\ build_prompt t1 (Some "detailed") <> build_prompt t2 style)
  /\ (forall hstr w request a,
        In a (calls (fst (post_summarize hstr w request)))
        \/ In a (calls (fst (post_summarize_stream hstr w request))) ->
        messages a = [("user", build_prompt (text request) (style request))]).
Proof.
  assert (Hconcise : forall t style,
             style <> Some "bullet_points" -> style <> Some "detailed" ->
             build_prompt t style
             = "Please provide a concise summary of the following text, capturing the main points in a clear and brief manner:"
               ++ LF ++ LF ++ t ++ LF ++ LF ++ "Concise summary:").
  { intros t style Hb Hd. unfold build_prompt.
    now rewrite (style_is_false _ _ Hb), (style_is_false _ _ Hd). }
  split; [reflexivity|]. split; [reflexivity|]. split; [exact Hconcise|].
  split; [|split].
  - intros t1 t2. cbn. discriminate.
  - intros t1 t2 style Hb Hd. rewrite (Hconcise t2 style Hb Hd).
    split; cbn; discriminate.
  - intros hstr w request a Hin.
    destruct (endpoint_calls hstr w request) as [(_ & E1 & E2) | (_ & E1 & E2)];
      rewrite E1, E2 in Hin; cbn [In] in Hin.
    + destruct Hin as [[<- | []] | [<- | []]]; reflexivity.
    + tauto.
Qed.

Lemma build_prompt_by_style_witness :
  None <> Some "bullet_points" /\ None <> Some "detailed"
  /\ Some "haiku" <> Some "bullet_points" /\ Some "haiku" <> Some "detailed"
  /\ build_prompt "Some text." None
     = "Please provide a concise summary of the following text, capturing the main points in a clear and brief manner:"
       ++ LF ++ LF ++ "Some text." ++ LF ++ LF ++ "Concise summary:"
  /\ build_prompt "Some text." (Some "haiku")
     = build_prompt "Some text." (Some "concise")
  /\ build_prompt "Some text." (Some "bullet_points")
     = "Please summarize the following text in bullet points format. Focus on the key points and main ideas:"
       ++ LF ++ LF ++ "Some text." ++ LF ++ LF ++ "Summary (bullet points):"
  /\ build_prompt "Some text." (Some "detailed")
     = "Please provide a detailed summary of the following text, maintaining important details and context:"
       ++ LF ++ LF ++ "Some text." ++ LF ++ LF ++ "Detailed summary:"
  /\ build_prompt "Some text." (Some "bullet_points")
     <> build_prompt "Other text." (Some "haiku")
  /\ In (stream_kwargs {| text := Samples.fox; max_length := None;
                          style := Some "bullet_points" |})
        (calls (fst (post_summarize_stream starlette_str Samples.answering
                       {| text := Samples.fox; max_length := None;
                          style := Some "bullet_points" |})))
  /\ messages (stream_kwargs {| text := Samples.fox; max_length := None;
                                style := Some "bullet_points" |})
     = [("user",
         "Please summarize the following text in bullet points format. Focus on the key points and main ideas:"
         ++ LF ++ LF ++ Samples.fox ++ LF ++ LF ++ "Summary (bullet points):")].
Proof.
  assert (H1 : @None string <> Some "bullet_points") by discriminate.
  assert (H2 : @None string <> Some "detailed") by discriminate.
  assert (H3 : Some "haiku" <> Some "bullet_points") by discriminate.
  assert (H4 : Some "haiku" <> Some "detailed") by discriminate.
  assert (Hin : In (stream_kwargs {| text := Samples.fox; max_length := None;
                                     style := Some "bullet_points" |})
                  (calls (fst (post_summarize_stream starlette_str
                                 Samples.answering
                                 {| text := Samples.fox; max_length := None;
                                    style := Some "bullet_points" |}))))
    by (left; reflexivity).
  destruct build_prompt_by_style as (Hb & Hd & Hc & _ & Hne & Hm).
  split; [exact H1|]. split; [exact H2|]. split; [exact H3|]. split; [exact H4|].
  split; [exact (Hc "Some text." None H1 H2)|].
  split; [rewrite (Hc "Some text." (Some "haiku") H3 H4); reflexivity|].
  split; [exact (Hb "Some text.")|].
  split; [exact (Hd "Some text.")|].
  split; [exact (proj1 (Hne "Some text." "Other text." (Some "haiku") H3 H4))|].
  split; [exact Hin|].
  rewrite (Hm starlette_str Samples.answering _ _ (or_intror Hin)).
  cbn [text style]. rewrite (Hb Samples.fox). reflexivity.
Defined.

(** Both handlers send the prompt as the single user message. *)
Lemma prompt_is_the_user_message (request : TextSummarizeRequest) :
  messages (sync_kwargs request)
    = [("user", build_prompt (text request) (style request))]
  /\ messages (stream_kwargs request)
    = [("user", build_prompt (text request) (style request))].
Proof. split; reflexivity. Qed.

(* ================================================================== *)
(** ** The arguments of the upstream call (C9, C10) *)

(** C9, refuted at [max_length = 0]: the value is specified, and the
    budget passed upstream by either endpoint is 500, not 0. *)
Lemma max_length_zero_counterexample :
  max_length (Samples.request_max Samples.fox 0) = Some 0
  /\ map max_tokens
       (calls (fst (post_summarize starlette_str Samples.answering
                      (Samples.request_max Samples.fox 0)))) = [500]
  /\ map max_tokens
       (calls (fst (post_summarize_stream starlette_str Samples.answering
                      (Samples.request_max Samples.fox 0)))) = [500]
  /\ ~ (forall a,
          In a (calls (fst (post_summarize starlette_str Samples.answering
                              (Samples.request_max Samples.fox 0)))) ->
          max_tokens a = 0).
Proof.
  split; [reflexivity|]. split; [reflexivity|]. split; [reflexivity|].
  intros H. specialize (H _ (or_introl eq_refl)). discriminate H.
Qed.

(** C9, amended: every upstream call of either endpoint has temperature
    0.3; its budget is 500 when [max_length] is unspecified, and the
    value of [max_length] when that is specified and not zero. *)
Theorem upstream_call_arguments hstr (w : Writer)
    (request : TextSummarizeRequest) (a : ChatArgs) :
  In a (calls (fst (post_summarize hstr w request)))
  \/ In a (calls (fst (post_summarize_stream hstr w request))) ->
  temperature a = 0.3%float
  /\ (max_length request = None -> max_tokens a = 500)
  /\ (forall n, max_length request = Some n -> n <> 0 -> max_tokens a = n).
Proof.
  intros Hin.
  assert (Ha : a = sync_kwargs request \/ a = stream_kwargs request).
  { destruct (endpoint_calls hstr w request) as [(_ & E1 & E2) | (_ & E1 & E2)];
      rewrite E1, E2 in Hin; cbn [In] in Hin; intuition auto. }
  assert (Hargs : temperature a = 0.3%float
                  /\ max_tokens a = if_truthy_else (max_length request) 500)
    by (destruct Ha as [-> | ->]; split; reflexivity).
  destruct Hargs as [Ht Hm]. split; [exact Ht|]. rewrite Hm. split.
  - intros ->. reflexivity.
  - intros n -> Hn. cbn. apply Z.eqb_neq in Hn. now rewrite Hn.
Qed.

Lemma upstream_call_arguments_witness :
  In (stream_kwargs (Samples.request_max Samples.fox 120))
     (calls (fst (post_summarize_stream starlette_str Samples.answering
                    (Samples.request_max Samples.fox 120))))
  /\ temperature (stream_kwargs (Samples.request_max Samples.fox 120)) = 0.3%float
  /\ max_tokens (stream_kwargs (Samples.request_max Samples.fox 120)) = 120.
Proof.
  assert (H : In (stream_kwargs (Samples.request_max Samples.fox 120))
                (calls (fst (post_summarize_stream starlette_str
                               Samples.answering
                               (Samples.request_max Samples.fox 120)))))
    by (left; reflexivity).
  assert (Hn : 120 <> 0) by discriminate.
  pose proof (upstream_call_arguments starlette_str Samples.answering
                (Samples.request_max Samples.fox 120) _ (or_intror H))
    as (Ht & _ & Hm).
  split; [exact H|]. split; [exact Ht|]. exact (Hm 120 eq_refl Hn).
Defined.

(** C10: once the text passes validation, a request with [max_length = n]
    makes each endpoint call upstream exactly once, whatever [n] is; the
    budget passed is 500 when [n = 0], as for an unspecified [max_length],
    and [n] itself when [n] is not zero, negative values included. *)
Theorem max_length_is_defaulted_by_truthiness hstr (w : Writer)
    (request : TextSummarizeRequest) (n : Z) :
  50 <= PyStr.len (PyStr.strip (text request)) ->
  max_length request = Some n ->
  exists a a',
    calls (fst (post_summarize hstr w request)) = [a]
    /\ calls (fst (post_summarize_stream hstr w request)) = [a']
    /\ (n = 0 -> max_tokens a = 500 /\ max_tokens a' = 500)
    /\ (n <> 0 -> max_tokens a = n /\ max_tokens a' = n).
Proof.
  intros Hlen Hn. apply passes_validation_iff in Hlen.
  destruct (endpoint_calls hstr w request) as [(_ & Hs & Hst) | (Hv & _)];
    [|congruence].
  exists (sync_kwargs request), (stream_kwargs request).
  split; [exact Hs|]. split; [exact Hst|].
  unfold sync_kwargs, stream_kwargs, chat_kwargs. cbn [max_tokens].
  rewrite Hn. cbn [if_truthy_else]. split.
  - intros ->. split; reflexivity.
  - intros Hnz. apply Z.eqb_neq in Hnz. rewrite Hnz. split; reflexivity.
Qed.

Lemma max_length_is_defaulted_by_truthiness_witness :
  50 <= PyStr.len (PyStr.strip (text (Samples.request_max Samples.fox (-5))))
  /\ max_length (Samples.request_max Samples.fox (-5)) = Some (-5)
  /\ map max_tokens
       (calls (fst (post_summarize starlette_str Samples.answering
                      (Samples.request_max Samples.fox (-5))))) = [-5]
  /\ exists a a',
       calls (fst (post_summarize starlette_str Samples.answering
                     (Samples.request_max Samples.fox 0))) = [a]
       /\ calls (fst (post_summarize_stream starlette_str Samples.answering
                        (Samples.request_max Samples.fox 0))) = [a']
       /\ (0 = 0 -> max_tokens a = 500 /\ max_tokens a' = 500)
       /\ (0 <> 0 -> max_tokens a = 0 /\ max_tokens a' = 0).
Proof.
  assert (H1 : 50 <= PyStr.len (PyStr.strip (text (Samples.request_max Samples.fox (-5)))))
    by (vm_compute; discriminate).
  assert (H0 : 50 <= PyStr.len (PyStr.strip (text (Samples.request_max Samples.fox 0))))
    by (vm_compute; discriminate).
  split; [exact H1|]. split; [reflexivity|]. split; [reflexivity|].
  exact (max_length_is_defaulted_by_truthiness starlette_str Samples.answering
           (Samples.request_max Samples.fox 0) 0 H0 eq_refl).
Defined.


(* ================================================================== *)
(** ** More on the word counter (main.py:49-50) *)

Module SplitFacts.
Import PyStr.

Lemma split_lstrip (s : string) : split (lstrip s) = split s.
Proof.
  unfold split. induction s as [|c s IH]; simpl; [reflexivity|].
  destruct (isspace c) eqn:Hc; [exact IH|].
  simpl. now rewrite Hc.
Qed.

Lemma split_from_rstrip (s : string) :
  forall word, split_from word (rstrip s) = split_from word s.
Proof.
  induction s as [|c s IH]; intros word; [reflexivity|].
  cbn [rstrip]. destruct (rstrip s) as [|d u] eqn:E.
  - destruct (isspace c) eqn:Hc; cbn [split_from]; rewrite Hc.
    + destruct word; now rewrite <- IH.
    + destruct word; now rewrite <- IH.
  - cbn [split_from]. destruct (isspace c); destruct word; now rewrite <- IH.
Qed.

Lemma rstrip_cons (c : ascii) (t : string) :
  rstrip (String c t)
  = match rstrip t with
    | EmptyString => if isspace c then EmptyString else String c EmptyString
    | String d u => String c (String d u)
    end.
Proof. reflexivity. Qed.

Lemma split_strip (s : string) : split (strip s) = split s.
Proof.
  unfold strip, split. rewrite split_from_rstrip. apply split_lstrip.
Qed.

Lemma rstrip_idem (s : string) : rstrip (rstrip s) = rstrip s.
Proof.
  induction s as [|c s IH]; [reflexivity|].
  rewrite (rstrip_cons c s). destruct (rstrip s) as [|d u] eqn:E.
  - destruct (isspace c) eqn:Hc; [reflexivity|]. cbn. now rewrite Hc.
  - rewrite rstrip_cons. now rewrite IH.
Qed.

Lemma strip_idem (s : string) : strip (strip s) = strip s.
Proof.
  unfold strip.
  destruct (PyStrFacts.lstrip_head s) as [-> | (c & t & -> & Hc)];
    [reflexivity|].
  destruct (PyStrFacts.rstrip_keeps_head c t Hc) as [t' E].
  rewrite E. cbn [lstrip]. rewrite Hc, <- E. apply rstrip_idem.
Qed.

(** The number of words read from [s] when a word is being read. *)
Lemma length_split_from_some (s w w' : string) :
  List.length (split_from (Some w) s) = List.length (split_from (Some w') s).
Proof.
  revert w w'. induction s as [|c s IH]; intros w w'; simpl; [reflexivity|].
  destruct (isspace c); [reflexivity | apply IH].
Qed.

Lemma length_split_from_bounds (s w : string) :
  (List.length (split_from None s) <= List.length (split_from (Some w) s)
   <= List.length (split_from None s) + 1)%nat.
Proof.
  revert w. induction s as [|c s IH]; intros w; simpl; [lia|].
  destruct (isspace c); simpl; [lia|].
  rewrite (length_split_from_some s (w ++ String c EmptyString)
             (String c EmptyString)). lia.
Qed.

Lemma length_split_from_space (a b : string) (c : ascii) :
  isspace c = true ->
  forall word,
    List.length (split_from word (a ++ String c b))
    = (List.length (split_from word a) + List.length (split_from None b))%nat.
Proof.
  intros Hc. induction a as [|x a IH]; intros word; simpl.
  - rewrite Hc. destruct word; reflexivity.
  - destruct (isspace x); destruct word; simpl; now rewrite IH.
Qed.

Lemma length_split_from_app (a b : string) :
  forall word,
    (List.length (split_from word a) + List.length (split_from None b)
     <= List.length (split_from word (a ++ b)) + 1
     /\ List.length (split_from word (a ++ b))
        <= List.length (split_from word a) + List.length (split_from None b))%nat.
Proof.
  induction a as [|x a IH]; intros word; simpl.
  - destruct word as [w|]; simpl; [|lia].
    pose proof (length_split_from_bounds b w). lia.
  - destruct (isspace x); destruct word; simpl;
      match goal with
      | |- context [split_from ?w (a ++ b)] => specialize (IH w)
      end; lia.
Qed.

Lemma split_from_blank (s : string) :
  blank s = true ->
  forall word, split_from word s = split_from word EmptyString.
Proof.
  unfold blank. induction s as [|c s IH]; intros H word; [reflexivity|].
  simpl in H. apply andb_true_iff in H. destruct H as [Hc Hs].
  simpl. rewrite Hc. destruct word; now rewrite (IH Hs).
Qed.

Lemma split_from_app_blank (a pad : string) :
  blank pad = true ->
  forall word, split_from word (a ++ pad) = split_from word a.
Proof.
  intros Hp. induction a as [|x a IH]; intros word; simpl.
  - now apply split_from_blank.
  - destruct (isspace x); destruct word; now rewrite IH.
Qed.

Lemma split_blank_app (pad a : string) :
  blank pad = true -> split (pad ++ a) = split a.
Proof.
  unfold blank, split. induction pad as [|c pad IH]; intros H; [reflexivity|].
  simpl in H. apply andb_true_iff in H. destruct H as [Hc Hp].
  simpl. rewrite Hc. now apply IH.
Qed.

Lemma strip_blank (s : string) : blank s = true <-> strip s = EmptyString.
Proof.
  unfold blank, strip. split.
  - induction s as [|c s IH]; intros H; [reflexivity|].
    simpl in H. apply andb_true_iff in H. destruct H as [Hc Hs].
    simpl. rewrite Hc. now apply IH.
  - induction s as [|c s IH]; intros H; [reflexivity|].
    simpl in *. destruct (isspace c) eqn:Hc; [now apply IH|].
    destruct (PyStrFacts.rstrip_keeps_head c s Hc) as [t' E].
    rewrite E in H. discriminate.
Qed.

End SplitFacts.

Lemma count_words_split (t : string) :
  count_words t = Z.of_nat (List.length (PyStr.split t)).
Proof. unfold count_words. now rewrite SplitFacts.split_strip. Qed.

(** Whitespace around a text does not count: the count of the trimmed
    text, and of the text between two blank strings, is the count of the
    text. *)
Theorem count_words_ignores_outer_whitespace (t before after : string) :
  blank before = true -> blank after = true ->
  count_words (PyStr.strip t) = count_words t
  /\ count_words (before ++ t ++ after) = count_words t.
Proof.
  intros Hb Ha. split.
  - unfold count_words. now rewrite SplitFacts.strip_idem.
  - rewrite !count_words_split. rewrite (SplitFacts.split_blank_app _ _ Hb).
    unfold PyStr.split. now rewrite (SplitFacts.split_from_app_blank _ _ Ha).
Qed.

Lemma count_words_ignores_outer_whitespace_witness :
  blank (LF ++ "  ") = true /\ blank " " = true
  /\ count_words (PyStr.strip "  two words ") = count_words "  two words "
  /\ count_words ((LF ++ "  ") ++ "two words" ++ " ") = 2.
Proof.
  assert (Hb : blank (LF ++ "  ") = true) by reflexivity.
  assert (Ha : blank " " = true) by reflexivity.
  split; [exact Hb|]. split; [exact Ha|].
  destruct (count_words_ignores_outer_whitespace "  two words " _ _ Hb Ha)
    as [H1 _].
  destruct (count_words_ignores_outer_whitespace "two words" _ _ Hb Ha)
    as [_ H2].
  split; [exact H1|]. rewrite H2. reflexivity.
Defined.

(** A text has no word exactly when it is empty or all whitespace, which
    is when its trimmed form is empty; the count is never negative. *)
Theorem count_words_zero_iff_blank (t : string) :
  0 <= count_words t
  /\ (count_words t = 0 <-> PyStr.strip t = EmptyString)
  /\ (count_words t = 0 <-> blank t = true).
Proof.
  assert (H : count_words t = 0 <-> PyStr.strip t = EmptyString).
  { split.
    - intros H0. destruct (PyStr.strip t) as [|c u] eqn:E; [reflexivity|].
      assert (Hp : 0 < count_words t)
        by (apply count_words_pos; now rewrite E).
      lia.
    - intros E. unfold count_words. now rewrite E. }
  split; [unfold count_words; lia|]. split; [exact H|].
  rewrite H. symmetry. apply SplitFacts.strip_blank.
Qed.

Lemma count_words_zero_iff_blank_witness :
  blank (" " ++ LF ++ " ") = true /\ count_words (" " ++ LF ++ " ") = 0.
Proof.
  assert (Hb : blank (" " ++ LF ++ " ") = true) by reflexivity.
  split; [exact Hb|].
  exact (proj2 (proj2 (proj2 (count_words_zero_iff_blank (" " ++ LF ++ " "))))
           Hb).
Defined.

(** Counting composes: across a whitespace character the counts add up;
    across a plain concatenation the last word of the first text and the
    first word of the second may merge, so the count is the sum or one
    less. *)
Theorem count_words_of_concatenation (a b : string) :
  (forall c, PyStr.isspace c = true ->
     count_words (a ++ String c b) = count_words a + count_words b)
  /\ count_words a + count_words b - 1 <= count_words (a ++ b)
     <= count_words a + count_words b.
Proof.
  rewrite !count_words_split. unfold PyStr.split. split.
  - intros c Hc. rewrite count_words_split. unfold PyStr.split.
    rewrite (SplitFacts.length_split_from_space a b c Hc None). lia.
  - pose proof (SplitFacts.length_split_from_app a b None). lia.
Qed.

Lemma count_words_of_concatenation_witness :
  PyStr.isspace " " = true
  /\ count_words ("A fox" ++ String " " "jumps.") = 2 + 1
  /\ count_words ("A fo" ++ "x jumps.") = 3
  /\ count_words "A fo" + count_words "x jumps." = 4.
Proof.
  assert (Hc : PyStr.isspace " " = true) by reflexivity.
  split; [exact Hc|]. split; [|split; reflexivity].
  exact (proj1 (count_words_of_concatenation "A fox" "jumps.") " "%char Hc).
Defined.

(* ================================================================== *)
(** ** What the synchronous endpoint answers (main.py:62-143) *)

(** The synchronous endpoint answers 200 exactly when the trimmed text has
    50 characters or more, the upstream call returns and its first choice
    has a string as content; the summary is that string, trimmed, and the
    other choices play no part.  Every other answer is a 401, a 429 or a
    500. *)
Theorem sync_endpoint_answers hstr (w : Writer) (request : TextSummarizeRequest) :
  (forall response,
     snd (post_summarize hstr w request) = HTTP200 response <->
     50 <= PyStr.len (PyStr.strip (text request))
     /\ exists completion content rest,
          chat w (sync_kwargs request) = Returns completion
          /\ choices completion = Some content :: rest
          /\ response
             = {| summary := PyStr.strip content;
                  original_word_count := count_words (text request);
                  summary_word_count := count_words (PyStr.strip content);
                  compression_ratio :=
                    calc_compression_ratio (count_words (PyStr.strip content))
                                           (count_words (text request)) |})
  /\ (status_of (snd (post_summarize hstr w request)) = 200
      \/ status_of (snd (post_summarize hstr w request)) = 401
      \/ status_of (snd (post_summarize hstr w request)) = 429
      \/ status_of (snd (post_summarize hstr w request)) = 500).
Proof.
  destruct (passes_validation request) eqn:Hv.
  - rewrite (post_summarize_accepted _ _ _ Hv). cbn [snd].
    apply passes_validation_iff in Hv. unfold shape_answer.
    destruct (chat w (sync_kwargs request)) as [completion|str_e].
    + destruct (choices completion) as [|[content|] rest] eqn:Hc.
      * destruct (handle_exception_raises hstr TextSummarizeResponse
                    (Exception "list index out of range"))
          as (c & d & -> & Hcode).
        split; [|cbn; intuition auto].
        intros response. split; [discriminate|].
        intros (_ & k & content & rest & Hk & Hch & _).
        injection Hk as <-. congruence.
      * split; [|now left].
        intros response. split.
        -- intros H. injection H as <-. split; [exact Hv|].
           exists completion, content, rest. auto.
        -- intros (_ & k & content' & rest' & Hk & Hch & ->).
           injection Hk as <-. rewrite Hc in Hch. injection Hch as <- _.
           reflexivity.
      * destruct (handle_exception_raises hstr TextSummarizeResponse
                    (Exception "'NoneType' object has no attribute 'strip'"))
          as (c & d & -> & Hcode).
        split; [|cbn; intuition auto].
        intros response. split; [discriminate|].
        intros (_ & k & content & rest' & Hk & Hch & _).
        injection Hk as <-. congruence.
    + destruct (handle_exception_raises hstr TextSummarizeResponse
                  (Exception str_e)) as (c & d & -> & Hcode).
      split; [|cbn; intuition auto].
      intros response. split; [discriminate|].
      intros (_ & k & content & rest & Hk & _). discriminate.
  - rewrite (post_summarize_rejected _ _ _ Hv). cbn [snd].
    destruct (handle_exception_raises hstr TextSummarizeResponse
                (validation_error request)) as (c & d & -> & Hcode).
    split; [|cbn; intuition auto].
    intros response. split; [discriminate|].
    intros (Hlen & _). apply passes_validation_iff in Hlen. congruence.
Qed.

Lemma sync_endpoint_answers_witness :
  50 <= PyStr.len (PyStr.strip (text (Samples.request Samples.fox)))
  /\ snd (post_summarize starlette_str Samples.answering
            (Samples.request Samples.fox))
     = HTTP200 {| summary := "A fox jumps.";
                  original_word_count := 13;
                  summary_word_count := 3;
                  compression_ratio := 76.9%float |}.
Proof.
  assert (H : 50 <= PyStr.len (PyStr.strip (text (Samples.request Samples.fox))))
    by (vm_compute; discriminate).
  split; [exact H|].
  apply (proj1 (sync_endpoint_answers starlette_str Samples.answering
                  (Samples.request Samples.fox))).
  split; [exact H|].
  exists {| choices := [Some " A fox jumps. "] |}, " A fox jumps. ", [].
  split; [reflexivity|]. split; reflexivity.
Defined.

(** An upstream answer that returns but has no choice at all, or whose
    first choice has [None] as content, is answered 500 with the text of
    the Python error; the call has been made once. *)
Theorem sync_answer_without_content hstr (w : Writer)
    (request : TextSummarizeRequest) (completion : ChatCompletion) :
  50 <= PyStr.len (PyStr.strip (text request)) ->
  chat w (sync_kwargs request) = Returns completion ->
  (choices completion = [] ->
   post_summarize hstr w request
   = ([Call (sync_kwargs request)],
      HTTPError 500 "Error generating summary: list index out of range"))
  /\ (forall rest, choices completion = None :: rest ->
      post_summarize hstr w request
      = ([Call (sync_kwargs request)],
         HTTPError 500
           "Error generating summary: 'NoneType' object has no attribute 'strip'")).
Proof.
  intros Hlen Hchat. apply passes_validation_iff in Hlen.
  rewrite (post_summarize_accepted _ _ _ Hlen), Hchat. unfold shape_answer.
  split.
  - intros ->. reflexivity.
  - intros rest ->. reflexivity.
Qed.

Lemma sync_answer_without_content_witness :
  50 <= PyStr.len (PyStr.strip (text (Samples.request Samples.fox)))
  /\ post_summarize starlette_str
       {| chat := fun _ => Returns {| choices := [] |};
          chat_stream := fun _ => Raises "unused" |}
       (Samples.request Samples.fox)
     = ([Call (sync_kwargs (Samples.request Samples.fox))],
        HTTPError 500 "Error generating summary: list index out of range").
Proof.
  assert (H : 50 <= PyStr.len (PyStr.strip (text (Samples.request Samples.fox))))
    by (vm_compute; discriminate).
  split; [exact H|].
  exact (proj1 (sync_answer_without_content starlette_str
                  {| chat := fun _ => Returns {| choices := [] |};
                     chat_stream := fun _ => Raises "unused" |}
                  (Samples.request Samples.fox) {| choices := [] |}
                  H eq_refl) eq_refl).
Defined.

Lemma post_summarize_summary hstr (w : Writer) (request : TextSummarizeRequest)
    (tr : list Effect) (response : TextSummarizeResponse) :
  post_summarize hstr w request = (tr, HTTP200 response) ->
  exists content, summary response = PyStr.strip content.
Proof.
  destruct (passes_validation request) eqn:Hv.
  - rewrite (post_summarize_accepted _ _ _ Hv). unfold shape_answer.
    destruct (chat w (sync_kwargs request)) as [completion|str_e].
    + destruct (choices completion) as [|[content|] rest].
      * destruct (handle_exception_raises hstr TextSummarizeResponse
                    (Exception "list index out of range")) as (c & d & -> & _).
        discriminate.
      * intros H. injection H as _ <-. now exists content.
      * destruct (handle_exception_raises hstr TextSummarizeResponse
                    (Exception "'NoneType' object has no attribute 'strip'"))
          as (c & d & -> & _).
        discriminate.
    + destruct (handle_exception_raises hstr TextSummarizeResponse
                  (Exception str_e)) as (c & d & -> & _).
      discriminate.
  - rewrite (post_summarize_rejected _ _ _ Hv).
    destruct (handle_exception_raises hstr TextSummarizeResponse
                (validation_error request)) as (c & d & -> & _).
    discriminate.
Qed.

(** The summary of a 200 answer is trimmed: trimming it again changes
    nothing and it does not start with whitespace. *)
Theorem sync_summary_is_trimmed hstr (w : Writer)
    (request : TextSummarizeRequest) (tr : list Effect)
    (response : TextSummarizeResponse) :
  post_summarize hstr w request = (tr, HTTP200 response) ->
  PyStr.strip (summary response) = summary response
  /\ forall c t, summary response = String c t -> PyStr.isspace c = false.
Proof.
  intros H.
  destruct (post_summarize_summary _ _ _ _ _ H) as [content ->]. split.
  - apply SplitFacts.strip_idem.
  - intros c t E.
    destruct (PyStrFacts.strip_head content) as [E0 | (c' & t' & E' & Hc)].
    + congruence.
    + rewrite E' in E. now injection E as <- _.
Qed.

Lemma sync_summary_is_trimmed_witness :
  post_summarize starlette_str Samples.answering (Samples.request Samples.fox)
  = ([Call (sync_kwargs (Samples.request Samples.fox))],
     HTTP200 {| summary := "A fox jumps.";
                original_word_count := 13;
                summary_word_count := 3;
                compression_ratio := 76.9%float |})
  /\ PyStr.strip "A fox jumps." = "A fox jumps.".
Proof.
  assert (H : post_summarize starlette_str Samples.answering
                (Samples.request Samples.fox)
              = ([Call (sync_kwargs (Samples.request Samples.fox))],
                 HTTP200 {| summary := "A fox jumps.";
                            original_word_count := 13;
                            summary_word_count := 3;
                            compression_ratio := 76.9%float |}))
    by reflexivity.
  split; [exact H|].
  exact (proj1 (sync_summary_is_trimmed starlette_str Samples.answering
                  (Samples.request Samples.fox) _ _ H)).
Defined.

(* ================================================================== *)
(** ** What the streaming endpoint answers (main.py:146-259) *)

(** The status of the streaming endpoint is decided by the validation
    alone: it is 200 exactly when the trimmed text has 50 characters or
    more, whatever the client does then, so two clients get the same
    status; and the handler itself, up to its [return], makes no upstream
    call and yields nothing. *)
Theorem stream_status_is_decided_by_validation hstr (w w' : Writer)
    (request : TextSummarizeRequest) :
  (status_of (snd (post_summarize_stream hstr w request)) = 200
   <-> 50 <= PyStr.len (PyStr.strip (text request)))
  /\ status_of (snd (post_summarize_stream hstr w request))
     = status_of (snd (post_summarize_stream hstr w' request))
  /\ fst (summarize_text_stream hstr w request) = [].
Proof.
  destruct (passes_validation request) eqn:Hv.
  - rewrite !(post_summarize_stream_accepted _ _ _ Hv). cbn [snd status_of].
    unfold summarize_text_stream.
    rewrite (summarize_text_stream_try_accepted _ _ _ Hv).
    apply passes_validation_iff in Hv. repeat split; auto.
  - rewrite !(post_summarize_stream_rejected _ _ _ Hv).
    unfold summarize_text_stream.
    rewrite (summarize_text_stream_try_rejected _ _ _ Hv).
    destruct (handle_exception_raises hstr StreamingResponse
                (validation_error request)) as (c & d & E & Hcode).
    unfold raise, try_except. rewrite E. cbn [snd respond status_of fst app].
    split; [|split; reflexivity].
    split.
    + intros ->. lia.
    + intros Hlen. apply passes_validation_iff in Hlen. congruence.
Qed.

Lemma stream_status_is_decided_by_validation_witness :
  50 <= PyStr.len (PyStr.strip (text (Samples.request Samples.fox)))
  /\ status_of (snd (post_summarize_stream starlette_str
                       (Samples.failing "Invalid api_key")
                       (Samples.request Samples.fox))) = 200.
Proof.
  assert (H : 50 <= PyStr.len (PyStr.strip (text (Samples.request Samples.fox))))
    by (vm_compute; discriminate).
  split; [exact H|].
  exact (proj2 (proj1 (stream_status_is_decided_by_validation starlette_str
                         (Samples.failing "Invalid api_key") Samples.answering
                         (Samples.request Samples.fox))) H).
Defined.

(** For one request, a 200 answer of the synchronous endpoint and a
    [complete] event of the streaming endpoint that carry the same text up
    to trimming carry the same three statistics: the stream does not trim
    its summary, and the counts do not see the difference. *)
Theorem both_endpoints_give_the_same_statistics hstr (w w' : Writer)
    (request : TextSummarizeRequest) (tr : list Effect)
    (response : TextSummarizeResponse) (streamed : string) (o s : Z) (r : float) :
  post_summarize hstr w request = (tr, HTTP200 response) ->
  In (Yield (complete streamed o s r))
     (fst (post_summarize_stream hstr w' request)) ->
  PyStr.strip streamed = summary response ->
  o = original_word_count response
  /\ s = summary_word_count response
  /\ r = compression_ratio response.
Proof.
  intros Hsync Hin Hsame.
  destruct (post_summarize_success _ _ _ _ _ Hsync) as (_ & Ho & Hs & Hr).
  destruct (complete_event_origin _ _ _ _ Hin) as (_ & _ & Hev).
  destruct (stream_events_shape (count_words (text request))
              (chat_stream w' (stream_kwargs request)))
    as (parts & t & E & Ht & Hc).
  rewrite E in Hev. apply in_stream_terminal in Hev; [|reflexivity].
  destruct (Hc _ _ _ _ (eq_sym Hev)) as (_ & -> & -> & ->).
  assert (Hcount : count_words streamed = summary_word_count response).
  { rewrite Hs, <- Hsame. unfold count_words.
    now rewrite SplitFacts.strip_idem. }
  rewrite Hr, Hcount, Ho. auto.
Qed.

Lemma both_endpoints_give_the_same_statistics_witness :
  post_summarize starlette_str Samples.answering (Samples.request Samples.fox)
  = ([Call (sync_kwargs (Samples.request Samples.fox))],
     HTTP200 {| summary := "A fox jumps.";
                original_word_count := 13;
                summary_word_count := 3;
                compression_ratio := 76.9%float |})
  /\ In (Yield (complete "A fox jumps." 13 3 76.9%float))
        (fst (post_summarize_stream starlette_str Samples.answering
                (Samples.request Samples.fox)))
  /\ PyStr.strip "A fox jumps." = "A fox jumps."
  /\ 13 = 13 /\ 3 = 3 /\ 76.9%float = 76.9%float.
Proof.
  assert (H1 : post_summarize starlette_str Samples.answering
                 (Samples.request Samples.fox)
               = ([Call (sync_kwargs (Samples.request Samples.fox))],
                  HTTP200 {| summary := "A fox jumps.";
                             original_word_count := 13;
                             summary_word_count := 3;
                             compression_ratio := 76.9%float |}))
    by reflexivity.
  assert (H2 : In (Yield (complete "A fox jumps." 13 3 76.9%float))
                 (fst (post_summarize_stream starlette_str Samples.answering
                         (Samples.request Samples.fox))))
    by (vm_compute; tauto).
  assert (H3 : PyStr.strip "A fox jumps." = "A fox jumps.") by reflexivity.
  split; [exact H1|]. split; [exact H2|]. split; [exact H3|].
  exact (both_endpoints_give_the_same_statistics starlette_str
           Samples.answering Samples.answering (Samples.request Samples.fox)
           _ _ _ _ _ _ H1 H2 H3).
Defined.

(** The stream keeps the whitespace that the synchronous answer trims. *)
Example stream_summary_is_not_trimmed :
  yielded (fst (post_summarize_stream starlette_str
                  {| chat := fun _ => Raises "unused";
                     chat_stream := fun _ =>
                       Returns {| chunks := [Samples.has " A fox. "];
                                  stream_failure := None |} |}
                  (Samples.request Samples.fox)))
  = [chunk " A fox. "; complete " A fox. " 13 2 84.6%float].
Proof. reflexivity. Qed.

(** Both endpoints call upstream once when the trimmed text has 50
    characters or more and not at all otherwise, also when the call fails;
    the two calls name the same model, carry the prompt as their only
    message, from the user, and the same budget; they differ in the
    streaming flag. *)
Theorem upstream_is_called_once_when_accepted hstr (w : Writer)
    (request : TextSummarizeRequest) :
  (PyStr.len (PyStr.strip (text request)) < 50 ->
   calls (fst (post_summarize hstr w request)) = []
   /\ calls (fst (post_summarize_stream hstr w request)) = [])
  /\ (50 <= PyStr.len (PyStr.strip (text request)) ->
      exists a a',
        calls (fst (post_summarize hstr w request)) = [a]
        /\ calls (fst (post_summarize_stream hstr w request)) = [a']
        /\ model a = "palmyra-x-004" /\ model a' = "palmyra-x-004"
        /\ messages a = [("user", build_prompt (text request) (style request))]
        /\ messages a' = messages a
        /\ max_tokens a' = max_tokens a
        /\ stream a = false /\ stream a' = true).
Proof.
  destruct (endpoint_calls hstr w request)
    as [(Hv & Hs & Hst) | (Hv & Hs & Hst)]; split.
  - intros Hlen. apply passes_validation_iff in Hv. lia.
  - intros _. exists (sync_kwargs request), (stream_kwargs request).
    repeat split; assumption.
  - intros _. now split.
  - intros Hlen. apply passes_validation_iff in Hlen. congruence.
Qed.

Lemma upstream_is_called_once_when_accepted_witness :
  50 <= PyStr.len (PyStr.strip (text (Samples.request Samples.fox)))
  /\ PyStr.len (PyStr.strip (text (Samples.request Samples.chars49))) < 50
  /\ calls (fst (post_summarize starlette_str (Samples.failing "down")
                   (Samples.request Samples.chars49))) = []
  /\ exists a a',
       calls (fst (post_summarize starlette_str (Samples.failing "down")
                     (Samples.request Samples.fox))) = [a]
       /\ calls (fst (post_summarize_stream starlette_str (Samples.failing "down")
                        (Samples.request Samples.fox))) = [a']
       /\ model a = "palmyra-x-004" /\ model a' = "palmyra-x-004"
       /\ messages a
          = [("user", build_prompt (text (Samples.request Samples.fox))
                        (style (Samples.request Samples.fox)))]
       /\ messages a' = messages a
       /\ max_tokens a' = max_tokens a
       /\ stream a = false /\ stream a' = true.
Proof.
  assert (H : 50 <= PyStr.len (PyStr.strip (text (Samples.request Samples.fox))))
    by (vm_compute; discriminate).
  assert (H49 : PyStr.len (PyStr.strip (text (Samples.request Samples.chars49)))
                < 50) by reflexivity.
  split; [exact H|]. split; [exact H49|]. split.
  - exact (proj1 (proj1 (upstream_is_called_once_when_accepted starlette_str
                           (Samples.failing "down")
                           (Samples.request Samples.chars49)) H49)).
  - exact (proj2 (upstream_is_called_once_when_accepted starlette_str
                    (Samples.failing "down") (Samples.request Samples.fox)) H).
Defined.

(* ================================================================== *)
(** ** More on the relay loop (main.py:203-209) *)

Lemma bind_assoc {A B C} (m : Work A) (f : A -> Work B) (g : B -> Work C) :
  bind (bind m f) g = bind m (fun a => bind (f a) g).
Proof.
  destruct m as [tr [a|e]]; [|reflexivity].
  unfold bind. destruct (f a) as [tr' [b|e]]; [|reflexivity].
  destruct (g b) as [tr'' r]. now rewrite app_assoc.
Qed.

(** The loop over a stream cut in two is the loop over the first part,
    taken as exhausted, followed by the loop over the second part from the
    text accumulated so far; so what is yielded for the first chunks does
    not depend on what comes after them. *)
Theorem relay_of_concatenation (cs1 cs2 : list ChatCompletionChunk)
    (failure : option string) (summary_text : string) :
  relay (cs1 ++ cs2) failure summary_text
  = bind (relay cs1 None summary_text)
         (fun accumulated => relay cs2 failure accumulated)
  /\ exists later,
       fst (relay (cs1 ++ cs2) failure summary_text)
       = (fst (relay cs1 None summary_text) ++ later)%list.
Proof.
  assert (H : forall acc,
             relay (cs1 ++ cs2) failure acc
             = bind (relay cs1 None acc) (fun a => relay cs2 failure a)).
  { induction cs1 as [|c cs1 IH]; intros acc.
    - cbn [app relay]. now rewrite bind_ret.
    - cbn [app relay]. rewrite bind_assoc.
      destruct (index0 (chunk_choices c)) as [tr [d|e]]; [|reflexivity].
      rewrite !bind_return. destruct (delta_text d) as [content|].
      + rewrite bind_assoc, !bind_perform. now rewrite IH.
      + now rewrite IH. }
  split; [apply H|]. rewrite H.
  destruct (relay cs1 None summary_text) as [tr [a|e]].
  - rewrite bind_return. eexists. reflexivity.
  - exists []. cbn. now rewrite app_nil_r.
Qed.

Lemma increments_in (cs : list ChatCompletionChunk) (content : string) :
  In content (increments cs) ->
  content <> EmptyString
  /\ exists c rest,
       In c cs /\ chunk_choices c = delta_content (Some content) :: rest.
Proof.
  induction cs as [|c cs IH]; cbn [increments]; [intros []|].
  destruct (chunk_choices c) as [|d ds] eqn:Hc; [intros []|].
  assert (Hrest : In content (increments cs) ->
                  content <> EmptyString
                  /\ exists c' rest,
                       In c' (c :: cs)
                       /\ chunk_choices c' = delta_content (Some content) :: rest).
  { intros Hin. destruct (IH Hin) as (Hne & c' & rest & Hin' & Hch).
    split; [exact Hne|]. exists c', rest. split; [now right | exact Hch]. }
  destruct d as [|[s|]]; cbn [delta_text]; try exact Hrest.
  destruct s as [|x s]; cbn [PyStr.truthy]; [exact Hrest|].
  intros [<- | Hin]; [|now apply Hrest].
  split; [discriminate|]. exists c, ds. split; [now left | exact Hc].
Qed.

(** A [chunk] event of the streaming endpoint is never empty, and its
    content is the content of the first choice of a chunk that the
    upstream stream produced. *)
Theorem forwarded_chunks_come_from_upstream hstr (w : Writer)
    (request : TextSummarizeRequest) (content : string) :
  In (Yield (chunk content)) (fst (post_summarize_stream hstr w request)) ->
  content <> EmptyString
  /\ exists s c rest,
       chat_stream w (stream_kwargs request) = Returns s
       /\ In c (chunks s)
       /\ chunk_choices c = delta_content (Some content) :: rest.
Proof.
  intros Hin. destruct (complete_event_origin _ _ _ _ Hin) as (_ & _ & Hev).
  destruct (chat_stream w (stream_kwargs request)) as [s|str_e];
    cbn [stream_events] in Hev.
  - apply in_app_or in Hev. destruct Hev as [Hev | [Hev | []]].
    + apply in_map_iff in Hev. destruct Hev as (x & E & Hx).
      injection E as ->.
      destruct (increments_in _ _ Hx) as (Hne & c & rest & Hc & Hch).
      split; [exact Hne|]. now exists s, c, rest.
    + destruct (interruption (chunks s) (stream_failure s)); discriminate.
  - destruct Hev as [Hev | []]. discriminate.
Qed.

Lemma forwarded_chunks_come_from_upstream_witness :
  In (Yield (chunk " jumps."))
     (fst (post_summarize_stream starlette_str Samples.answering
             (Samples.request Samples.fox)))
  /\ " jumps." <> EmptyString.
Proof.
  assert (H : In (Yield (chunk " jumps."))
                (fst (post_summarize_stream starlette_str Samples.answering
                        (Samples.request Samples.fox))))
    by (vm_compute; tauto).
  split; [exact H|].
  exact (proj1 (forwarded_chunks_come_from_upstream starlette_str
                  Samples.answering (Samples.request Samples.fox) _ H)).
Defined.

Lemma yielded_call_then_events (a : ChatArgs) (evs : list StreamEvent) :
  yielded (Call a :: map Yield evs) = evs.
Proof. unfold yielded. cbn [flat_map app]. apply yielded_map_Yield. Qed.

Lemma interruption_some (cs : list ChatCompletionChunk) (str_e : string) :
  Forall (fun c => chunk_choices c <> []) cs ->
  interruption cs (Some str_e) = Some str_e.
Proof.
  induction 1 as [|c cs Hc _ IH]; simpl; [reflexivity|].
  destruct (chunk_choices c); [congruence | exact IH].
Qed.

Lemma interruption_without_choice (cs : list ChatCompletionChunk)
    (failure : option string) :
  Exists (fun c => chunk_choices c = []) cs ->
  interruption cs failure = Some "list index out of range".
Proof.
  induction 1 as [c cs Hc | c cs _ IH]; simpl.
  - now rewrite Hc.
  - destruct (chunk_choices c); [reflexivity | exact IH].
Qed.

(** A stream that raises when it is iterated past its last chunk, beside
    the stream of the same chunks that ends there.  Both give the same
    [chunk] events.  When every chunk has a choice, the first ends with
    [error] carrying the text of the exception as it is, where the second
    ends with [complete].  When some chunk has no choice, the loop never
    gets to the end of either stream: both end with the [error] of the
    index error. *)
Theorem stream_failure_replaces_the_terminal_event hstr (w w' : Writer)
    (request : TextSummarizeRequest) (cs : list ChatCompletionChunk)
    (str_e : string) :
  50 <= PyStr.len (PyStr.strip (text request)) ->
  chat_stream w (stream_kwargs request)
  = Returns {| chunks := cs; stream_failure := Some str_e |} ->
  chat_stream w' (stream_kwargs request)
  = Returns {| chunks := cs; stream_failure := None |} ->
  exists parts,
    (Forall (fun c => chunk_choices c <> []) cs ->
     exists o s r,
       yielded (fst (post_summarize_stream hstr w' request))
       = (map chunk parts ++ [complete (join parts) o s r])%list
       /\ yielded (fst (post_summarize_stream hstr w request))
          = (map chunk parts ++ [error str_e])%list)
    /\ (Exists (fun c => chunk_choices c = []) cs ->
        yielded (fst (post_summarize_stream hstr w' request))
        = (map chunk parts ++ [error "list index out of range"])%list
        /\ yielded (fst (post_summarize_stream hstr w request))
           = (map chunk parts ++ [error "list index out of range"])%list).
Proof.
  intros Hlen Hw Hw'. apply passes_validation_iff in Hlen.
  rewrite !(post_summarize_stream_accepted _ _ _ Hlen), Hw, Hw'.
  cbn [fst stream_events chunks stream_failure].
  rewrite !yielded_call_then_events.
  exists (increments cs). split.
  - intros Hcs.
    rewrite (interruption_some _ _ Hcs), (interruption_none _ Hcs).
    do 3 eexists. split; reflexivity.
  - intros Hcs. rewrite !(interruption_without_choice _ _ Hcs).
    split; reflexivity.
Qed.

Lemma stream_failure_replaces_the_terminal_event_witness :
  50 <= PyStr.len (PyStr.strip (text (Samples.request Samples.fox)))
  /\ Forall (fun c => chunk_choices c <> []) [Samples.has "A fox"]
  /\ exists parts,
       (Forall (fun c => chunk_choices c <> []) [Samples.has "A fox"] ->
        exists o s r,
          yielded (fst (post_summarize_stream starlette_str
                          {| chat := fun _ => Raises "unused";
                             chat_stream := fun _ =>
                               Returns {| chunks := [Samples.has "A fox"];
                                          stream_failure := None |} |}
                          (Samples.request Samples.fox)))
          = (map chunk parts ++ [complete (join parts) o s r])%list
          /\ yielded (fst (post_summarize_stream starlette_str
                             (Samples.breaking "rate limit exceeded")
                             (Samples.request Samples.fox)))
             = (map chunk parts ++ [error "rate limit exceeded"])%list)
       /\ (Exists (fun c => chunk_choices c = []) [Samples.has "A fox"] ->
           yielded (fst (post_summarize_stream starlette_str
                           {| chat := fun _ => Raises "unused";
                              chat_stream := fun _ =>
                                Returns {| chunks := [Samples.has "A fox"];
                                           stream_failure := None |} |}
                           (Samples.request Samples.fox)))
           = (map chunk parts ++ [error "list index out of range"])%list
           /\ yielded (fst (post_summarize_stream starlette_str
                              (Samples.breaking "rate limit exceeded")
                              (Samples.request Samples.fox)))
              = (map chunk parts ++ [error "list index out of range"])%list).
Proof.
  assert (H : 50 <= PyStr.len (PyStr.strip (text (Samples.request Samples.fox))))
    by (vm_compute; discriminate).
  assert (Hcs : Forall (fun c => chunk_choices c <> []) [Samples.has "A fox"])
    by (repeat constructor; discriminate).
  split; [exact H|]. split; [exact Hcs|].
  exact (stream_failure_replaces_the_terminal_event starlette_str
           (Samples.breaking "rate limit exceeded")
           {| chat := fun _ => Raises "unused";
              chat_stream := fun _ =>
                Returns {| chunks := [Samples.has "A fox"];
                           stream_failure := None |} |}
           (Samples.request Samples.fox) [Samples.has "A fox"]
           "rate limit exceeded" H eq_refl eq_refl).
Defined.

(** The two cases on samples: a broken stream whose chunks all have a
    choice, and one with a chunk without choice before the break. *)
Example stream_failure_samples :
  yielded (fst (post_summarize_stream starlette_str
                  (Samples.breaking "rate limit exceeded")
                  (Samples.request Samples.fox)))
  = [chunk "A fox"; error "rate limit exceeded"]
  /\ yielded (fst (post_summarize_stream starlette_str
                     {| chat := fun _ => Raises "unused";
                        chat_stream := fun _ =>
                          Returns {| chunks := [Samples.has "A fox";
                                                {| chunk_choices := [] |}];
                                     stream_failure := Some "boom" |} |}
                     (Samples.request Samples.fox)))
     = [chunk "A fox"; error "list index out of range"].
Proof. split; reflexivity. Qed.

(* ================================================================== *)
(** ** The allowed origins (main.py:15) *)

Lemma split_on_nonempty (sep : ascii) (s : string) : split_on sep s <> [].
Proof.
  destruct s as [|c t]; simpl; [discriminate|].
  destruct (Ascii.eqb c sep); [discriminate|].
  destruct (split_on sep t); discriminate.
Qed.

Lemma join_with_cons (sep a b : string) (rest : list string) :
  join_with sep (a :: b :: rest) = a ++ sep ++ join_with sep (b :: rest).
Proof. reflexivity. Qed.

Lemma join_split_on (sep : ascii) (s : string) :
  join_with (String sep EmptyString) (split_on sep s) = s.
Proof.
  induction s as [|c t IH]; [reflexivity|].
  cbn [split_on]. pose proof (split_on_nonempty sep t) as Hne.
  destruct (Ascii.eqb c sep) eqn:Hc.
  - apply Ascii.eqb_eq in Hc. subst c.
    destruct (split_on sep t) as [|piece pieces]; [congruence|].
    rewrite join_with_cons, IH. reflexivity.
  - destruct (split_on sep t) as [|piece pieces]; [congruence|].
    destruct pieces as [|piece' pieces].
    + cbn [join_with] in *. now rewrite IH.
    + rewrite join_with_cons in *. rewrite <- IH. reflexivity.
Qed.

Lemma length_split_on (sep : ascii) (s : string) :
  List.length (split_on sep s) = S (count_char sep s).
Proof.
  induction s as [|c t IH]; [reflexivity|].
  cbn [split_on count_char]. pose proof (split_on_nonempty sep t) as Hne.
  destruct (Ascii.eqb c sep); cbn [List.length]; [now rewrite IH|].
  destruct (split_on sep t) as [|piece pieces]; [congruence|].
  cbn [List.length] in *. exact IH.
Qed.

Lemma split_on_pieces (sep : ascii) (s : string) :
  Forall (fun piece => count_char sep piece = 0%nat) (split_on sep s).
Proof.
  induction s as [|c t IH]; [repeat constructor|].
  cbn [split_on]. destruct (Ascii.eqb c sep) eqn:Hc.
  - constructor; [reflexivity | exact IH].
  - destruct (split_on sep t) as [|piece pieces]; [repeat constructor; cbn; now rewrite Hc|].
    inversion IH as [|? ? Hp Hps]; subst.
    constructor; [|exact Hps]. cbn [count_char]. now rewrite Hc, Hp.
Qed.

(** The list of allowed origins is never empty, has one origin more than
    the configured value has commas, none of its origins contains a
    comma, and joined with commas it gives the configured value back:
    nothing is trimmed or dropped, an empty value gives one empty origin. *)
Theorem cors_origins_split_the_configured_value
    (environ : string -> option string) :
  let configured :=
    getenv environ "CORS_ORIGINS"
      "http://localhost:3000,http://localhost:5173,http://localhost:5174" in
  join_with "," (cors_origins environ) = configured
  /\ List.length (cors_origins environ) = S (count_char comma configured)
  /\ Forall (fun origin => count_char comma origin = 0%nat) (cors_origins environ).
Proof.
  cbv zeta. unfold cors_origins. split; [|split].
  - apply (join_split_on comma).
  - apply length_split_on.
  - apply split_on_pieces.
Qed.

Example cors_origins_samples :
  cors_origins (fun _ => None)
  = ["http://localhost:3000"; "http://localhost:5173"; "http://localhost:5174"]
  /\ cors_origins (fun name => if String.eqb name "CORS_ORIGINS"
                               then Some "https://a.example, https://b.example"
                               else None)
     = ["https://a.example"; " https://b.example"]
  /\ cors_origins (fun _ => Some EmptyString) = [EmptyString].
Proof. repeat split; reflexivity. Qed.

(* ================================================================== *)
(** ** The frames of the event stream (main.py:209, 227-231) *)

Lemma all_chars_app (p : ascii -> bool) (a b : string) :
  all_chars p (a ++ b) = all_chars p a && all_chars p b.
Proof.
  induction a as [|c a IH]; simpl; [reflexivity|].
  now rewrite IH, andb_assoc.
Qed.

Lemma json_escape_char_printable (c : ascii) :
  all_chars printable (json_escape_char c) = true.
Proof. destruct c as [[] [] [] [] [] [] [] []]; reflexivity. Qed.

Lemma json_escape_printable (s : string) :
  all_chars printable (json_escape s) = true.
Proof.
  induction s as [|c s IH]; [reflexivity|].
  cbn [json_escape]. now rewrite all_chars_app, json_escape_char_printable, IH.
Qed.

Lemma json_string_printable (s : string) :
  all_chars printable (json_string s) = true.
Proof.
  unfold json_string. now rewrite !all_chars_app, json_escape_printable.
Qed.

Lemma join_with_printable (pieces : list string) :
  Forall (fun piece => all_chars printable piece = true) pieces ->
  all_chars printable (join_with ", " pieces) = true.
Proof.
  induction 1 as [|piece pieces Hp Hps IH]; [reflexivity|].
  destruct pieces as [|piece' pieces]; [exact Hp|].
  rewrite join_with_cons, !all_chars_app, Hp, IH. reflexivity.
Qed.

Lemma json_dumps_printable (d : list (string * string)) :
  all_chars printable (json_dumps d) = true.
Proof.
  unfold json_dumps. rewrite !all_chars_app.
  rewrite join_with_printable; [reflexivity|].
  apply Forall_forall. intros piece Hin.
  apply in_map_iff in Hin. destruct Hin as ([k v] & <- & _).
  now rewrite !all_chars_app, !json_string_printable.
Qed.

(** Whatever the text, line breaks included, the frame of a [chunk] and
    of an [error] event is the prefix [data: ], one line of printable
    ASCII characters and one blank line. *)
Theorem frames_are_single_lines (s : string) :
  (exists payload,
     chunk_frame s = "data: " ++ payload ++ LF ++ LF
     /\ all_chars printable payload = true)
  /\ (exists payload,
        error_frame s = "data: " ++ payload ++ LF ++ LF
        /\ all_chars printable payload = true).
Proof.
  split; eexists; (split; [reflexivity | apply json_dumps_printable]).
Qed.

Lemma json_unescape_step (c : ascii) (rest : string) :
  json_unescape (json_escape_char c ++ rest)
  = option_map (String c) (json_unescape rest).
Proof. destruct c as [[] [] [] [] [] [] [] []]; reflexivity. Qed.

Lemma json_unescape_escape (s : string) :
  json_unescape (json_escape s) = Some s.
Proof.
  induction s as [|c s IH]; [reflexivity|].
  cbn [json_escape]. now rewrite json_unescape_step, IH.
Qed.

Lemma json_escape_injective (s1 s2 : string) :
  json_escape s1 = json_escape s2 -> s1 = s2.
Proof.
  intros H. pose proof (json_unescape_escape s1) as H1.
  rewrite H, json_unescape_escape in H1. now injection H1.
Qed.

Lemma append_length (a b : string) :
  String.length (a ++ b) = (String.length a + String.length b)%nat.
Proof. induction a as [|c a IH]; simpl; [reflexivity | now rewrite IH]. Qed.

Lemma append_inv_head (a x y : string) : a ++ x = a ++ y -> x = y.
Proof.
  induction a as [|c a IH]; simpl; intros H; [exact H|].
  injection H as H. now apply IH.
Qed.

Lemma append_inv_tail (x y a : string) : x ++ a = y ++ a -> x = y.
Proof.
  intros H.
  assert (Hlen : String.length x = String.length y).
  { apply (f_equal String.length) in H. rewrite !append_length in H. lia. }
  revert y H Hlen. induction x as [|c x IH]; intros [|d y] H Hlen;
    simpl in *; try discriminate; [reflexivity|].
  injection H as -> H. f_equal. apply IH; [exact H | lia].
Qed.

Lemma chunk_frame_eq (content : string) :
  chunk_frame content
  = ("data: {" ++ DQ ++ "type" ++ DQ ++ ": " ++ DQ ++ "chunk" ++ DQ ++ ", "
     ++ DQ ++ "content" ++ DQ ++ ": " ++ DQ)
    ++ json_escape content ++ (DQ ++ "}" ++ LF ++ LF).
Proof.
  unfold chunk_frame, json_dumps, json_string. cbn [map fst snd join_with].
  change (json_escape "type") with "type".
  change (json_escape "chunk") with "chunk".
  change (json_escape "content") with "content".
  rewrite !append_assoc. reflexivity.
Qed.

Lemma error_frame_eq (message : string) :
  error_frame message
  = ("data: {" ++ DQ ++ "type" ++ DQ ++ ": " ++ DQ ++ "error" ++ DQ ++ ", "
     ++ DQ ++ "message" ++ DQ ++ ": " ++ DQ)
    ++ json_escape message ++ (DQ ++ "}" ++ LF ++ LF).
Proof.
  unfold error_frame, json_dumps, json_string. cbn [map fst snd join_with].
  change (json_escape "type") with "type".
  change (json_escape "error") with "error".
  change (json_escape "message") with "message".
  rewrite !append_assoc. reflexivity.
Qed.

(** The frames lose nothing: two [chunk] frames are equal only for equal
    contents, two [error] frames only for equal messages, and a [chunk]
    frame is never an [error] frame. *)
Theorem frames_determine_their_text (s1 s2 : string) :
  (chunk_frame s1 = chunk_frame s2 -> s1 = s2)
  /\ (error_frame s1 = error_frame s2 -> s1 = s2)
  /\ chunk_frame s1 <> error_frame s2.
Proof.
  rewrite !chunk_frame_eq, !error_frame_eq. split; [|split].
  - intros H. apply append_inv_head, append_inv_tail in H.
    now apply json_escape_injective.
  - intros H. apply append_inv_head, append_inv_tail in H.
    now apply json_escape_injective.
  - cbn. discriminate.
Qed.

Lemma frames_determine_their_text_witness :
  chunk_frame ("two" ++ LF ++ "lines") = chunk_frame ("two" ++ LF ++ "lines")
  /\ "two" ++ LF ++ "lines" = "two" ++ LF ++ "lines"
  /\ chunk_frame ("two" ++ LF ++ "lines")
     = "data: {" ++ DQ ++ "type" ++ DQ ++ ": " ++ DQ ++ "chunk" ++ DQ ++ ", "
       ++ DQ ++ "content" ++ DQ ++ ": " ++ DQ ++ "two\nlines" ++ DQ ++ "}"
       ++ LF ++ LF.
Proof.
  assert (H : chunk_frame ("two" ++ LF ++ "lines")
              = chunk_frame ("two" ++ LF ++ "lines")) by reflexivity.
  split; [exact H|]. split; [|reflexivity].
  exact (proj1 (frames_determine_their_text _ _) H).
Defined.

(* ================================================================== *)
(** ** The prompt keeps the text (main.py:79-96, 164-181) *)

(** For a given style the prompt determines the text: the text is put in
    as it is, untrimmed, between a fixed heading and a fixed ending, so two
    texts with the same prompt are equal. *)
Theorem build_prompt_determines_the_text (style : option string)
    (t1 t2 : string) :
  build_prompt t1 style = build_prompt t2 style -> t1 = t2.
Proof.
  unfold build_prompt.
  destruct (style_is style "bullet_points");
    [|destruct (style_is style "detailed")];
    intros H;
    do 3 apply append_inv_head in H;
    now apply append_inv_tail in H.
Qed.

Lemma build_prompt_determines_the_text_witness :
  build_prompt " padded " (Some "detailed")
  = build_prompt " padded " (Some "detailed")
  /\ " padded " = " padded "
  /\ build_prompt " padded " (Some "detailed")
     <> build_prompt "padded" (Some "detailed").
Proof.
  assert (H : build_prompt " padded " (Some "detailed")
              = build_prompt " padded " (Some "detailed")) by reflexivity.
  split; [exact H|]. split.
  - exact (build_prompt_determines_the_text (Some "detailed") _ _ H).
  - intros E.
    pose proof (build_prompt_determines_the_text (Some "detailed") _ _ E) as E'.
    discriminate E'.
Defined.
